(** * Verification of the heartbeat agent

    A shallow embedding of
    [archive/python-agents/cost-effective-agent-heartbeat.py]
    (class [CostEffectiveAgent]) and the properties of its metric sampler,
    metadata resolver, cost estimator, status classifier, heartbeat sender
    and main loop. *)

From Stdlib Require Import ZArith QArith Qround Qabs Lia Lqa String List.
From stdpp Require Import base gmap strings list fin_maps.

Local Open Scope Z_scope.

(** ** Python numbers

    A Python [float] is an IEEE-754 binary64 value.  A finite float is
    represented by its exact rational value; the rounding to nearest (ties to
    even) that every float operation performs is written out in [b64_round].
    The two infinities and NaN are separate constructors.  The sign of a zero
    is not represented (it only shows when a zero is printed). *)

Module Float.

Inductive pyfloat : Type :=
| FFin (q : Q)
| FInf (negative : bool)
| FNaN.

(** [2^e] as a rational, for any integer [e]. *)
Definition pow2 (e : Z) : Q :=
  if 0 <=? e then inject_Z (2 ^ e) else / inject_Z (2 ^ (- e)).

(** [floor (log2 q)] for [q > 0]. *)
Definition floor_log2 (q : Q) : Z :=
  let k := Z.log2 (Qnum q) - Z.log2 (Zpos (Qden q)) in
  if Qle_bool (pow2 k) q then k else k - 1.

(** Nearest integer, ties to the even one. *)
Definition round_half_even (q : Q) : Z :=
  let f := Qfloor q in
  match (q - inject_Z f ?= 1 # 2)%Q with
  | Lt => f
  | Gt => f + 1
  | Eq => if Z.even f then f else f + 1
  end.

Definition mant_bits : Z := 53.
Definition min_exp : Z := -1074.
Definition max_exp : Z := 1024.

(** Round a rational to the nearest binary64 value: 53 significant bits,
    gradual underflow below [2^-1022], overflow to an infinity from
    [2^1024]. *)
Definition b64_round (q : Q) : pyfloat :=
  if Qeq_bool q 0 then FFin 0
  else
    let a := Qabs q in
    let e := Z.max (floor_log2 a - (mant_bits - 1)) min_exp in
    let m := round_half_even (a / pow2 e) in
    let r := (inject_Z m * pow2 e)%Q in
    let neg := negb (Qle_bool 0 q) in
    if Qle_bool (pow2 max_exp) r then FInf neg
    else FFin (Qred (if neg then - r else r)).

(** A decimal literal [n / 10^k] of the source text, [k >= 0], e.g.
    [literal 116 4] for [0.0116]. *)
Definition literal (n : Z) (k : Z) : pyfloat :=
  b64_round (inject_Z n / inject_Z (10 ^ k)).

(** [float(z)] for the small integer constants of the program. *)
Definition of_int (z : Z) : pyfloat := b64_round (inject_Z z).

(** [x * y] on floats. *)
Definition mul (x y : pyfloat) : pyfloat :=
  match x, y with
  | FNaN, _ | _, FNaN => FNaN
  | FFin a, FFin b => b64_round (a * b)
  | FInf s, FInf t => FInf (xorb s t)
  | FInf s, FFin b | FFin b, FInf s =>
      if Qeq_bool b 0 then FNaN else FInf (xorb s (negb (Qle_bool 0 b)))
  end.

(** [x < y] on floats; every comparison with NaN is false. *)
Definition lt (x y : pyfloat) : bool :=
  match x, y with
  | FNaN, _ | _, FNaN => false
  | FFin a, FFin b => negb (Qle_bool b a)
  | FFin _, FInf neg => negb neg
  | FInf neg, FFin _ => neg
  | FInf s, FInf t => s && negb t
  end.

(** [round(x, ndigits)] for a float [x] and [ndigits >= 0]: the decimal with
    [ndigits] fractional digits nearest to the exact value of [x] (ties to
    even), converted back to binary64. *)
Definition round (x : pyfloat) (ndigits : Z) : pyfloat :=
  match x with
  | FFin q =>
      let p := inject_Z (10 ^ ndigits) in
      b64_round (inject_Z (round_half_even (q * p)) / p)
  | _ => x
  end.

End Float.

Import Float.

(** A Python number as the program handles them: an [int] (unbounded) or a
    [float]. *)
Inductive pynum : Type :=
| PInt (z : Z)
| PFloat (f : pyfloat).

(** [x > z] for a number [x] and an integer constant [z]; Python compares an
    int with a float by exact value. *)
Definition num_gt (x : pynum) (z : Z) : bool :=
  match x with
  | PInt n => z <? n
  | PFloat f => lt (FFin (inject_Z z)) f
  end.

(** The exact value of a number, when it has one. *)
Definition num_value (x : pynum) : option Q :=
  match x with
  | PInt n => Some (inject_Z n)
  | PFloat (FFin q) => Some q
  | PFloat _ => None
  end.

(** ** Exceptions and outcomes

    [Exception kind] stands for an instance of any subclass of Python's
    [Exception] ([OSError], [ValueError], the errors of [psutil] and
    [requests], ...).  [KeyboardInterrupt] derives from [BaseException] only,
    so [except Exception] does not catch it while a bare [except:] does. *)

Inductive exn : Type :=
| Exception (kind : string)
| KeyboardInterrupt.

Inductive outcome (A : Type) : Type :=
| Ok (a : A)
| Raise (e : exn).
Arguments Ok {A} a.
Arguments Raise {A} e.

(** [a / b] on ints (true division): correctly rounded, [ZeroDivisionError]
    for [b = 0], [OverflowError] when the quotient exceeds the float range. *)
Definition int_truediv (a b : Z) : outcome pyfloat :=
  if b =? 0 then Raise (Exception "ZeroDivisionError")
  else match b64_round (inject_Z a / inject_Z b) with
       | FInf _ => Raise (Exception "OverflowError")
       | r => Ok r
       end.

(** ** Data *)

(** Values stored in the metadata dict. *)
Inductive pyval : Type :=
| VNone
| VStr (s : string)
| VList (l : list string).

(** The dict returned by [get_system_metrics]; its keys are the same on both
    branches. *)
Record metrics : Type := {
  cpuUsage : pynum;
  memoryUsage : pynum;
  diskUsage : pynum;
  networkIn : Z;
  networkOut : Z;
  tasksCompleted : Z;
  currentTasks : Z
}.

(** The dict returned by [calculate_cost]. *)
Record cost : Type := {
  hourly : pyfloat;
  daily : pyfloat;
  monthly : pyfloat
}.

(** The JSON body of the heartbeat. *)
Record payload : Type := {
  p_status : string;
  p_metrics : metrics;
  p_cost : cost;
  p_metadata : gmap string pyval;
  p_timestamp : string
}.

(** What the program reads of a [requests] response. [body_is_json] tells
    whether [response.json()] decodes the body or raises. *)
Record response : Type := {
  status_code : Z;
  text : string;
  body_is_json : bool
}.

(** The fields of [self]. *)
Record agent : Type := {
  agent_id : string;
  agent_type : string;
  dashboard_url : string;
  heartbeat_interval : Z;
  tasks_completed : Z;
  current_tasks : Z
}.

(** Lines printed on the console. *)
Inductive message : Type :=
| MsgStartMonitoring (id : string)
| MsgMetricsError (e : exn)
| MsgHeartbeatSent (cpu : pynum) (status : string)
| MsgHeartbeatFailed (code : Z) (body : string)
| MsgSendError (e : exn)
| MsgTaskCompleted (total : Z)
| MsgTaskStarted (current : Z)
| MsgTaskFinished (remaining : Z)
| MsgRetryNextCycle
| MsgStopping (id : string)
| MsgUnexpected (e : exn).

(** What the agent does to the outside, in order. *)
Inductive event : Type :=
| EvPrint (m : message)
| EvGet (url : string) (timeout : Z)
| EvPost (url : string) (body : payload) (timeout : Z)
| EvSleep (seconds : Z).

(** What the outside answers during one pass of the main loop.  A query or a
    request answers ([Ok]), fails with an error, or is cut short by a Ctrl-C
    ([Raise KeyboardInterrupt]); a sleep ends or is cut short by a Ctrl-C. *)
Record world : Type := {
  w_hostname : string;                    (* socket.gethostname() *)
  w_cpu_percent : outcome pyfloat;        (* psutil.cpu_percent(interval=1) *)
  w_memory_percent : outcome pyfloat;     (* psutil.virtual_memory().percent *)
  w_disk_usage : outcome (Z * Z);         (* psutil.disk_usage('/'): used, total *)
  w_net_io : outcome (Z * Z);             (* bytes_recv, bytes_sent *)
  w_get : string -> outcome response;     (* requests.get(url, timeout=2) *)
  w_post : outcome response;              (* requests.post(url, json=..., timeout=10) *)
  w_now : string;                         (* datetime.now().isoformat() *)
  w_random1 : pyfloat;                    (* the three random.random() draws *)
  w_random2 : pyfloat;
  w_random3 : pyfloat;
  w_sleep_interrupted : bool;             (* Ctrl-C during the sleep of the try block *)
  w_handler_sleep_interrupted : bool      (* Ctrl-C during the sleep of the handler *)
}.

(** ** The monad of methods: state [self], a trace of events, exceptions *)

Definition M (A : Type) : Type :=
  agent -> list event -> outcome A * agent * list event.

Definition ret {A} (a : A) : M A := fun self tr => (Ok a, self, tr).

Definition bind {A B} (m : M A) (f : A -> M B) : M B :=
  fun self tr =>
    match m self tr with
    | (Ok a, self', tr') => f a self' tr'
    | (Raise e, self', tr') => (Raise e, self', tr')
    end.

Notation "x <- m ;; k" := (bind m (fun x => k))
  (at level 100, m at level 60, right associativity).
Notation "m ;;; k" := (bind m (fun _ => k))
  (at level 100, right associativity).

Definition raise {A} (e : exn) : M A := fun self tr => (Raise e, self, tr).

Definition lift {A} (o : outcome A) : M A := fun self tr => (o, self, tr).

Definition get_self : M agent := fun self tr => (Ok self, self, tr).

Definition put_self (self' : agent) : M unit := fun _ tr => (Ok tt, self', tr).

Definition emit (ev : event) : M unit := fun self tr => (Ok tt, self, tr ++ [ev]).

Definition print (m : message) : M unit := emit (EvPrint m).

(** [try: m  except Exception as e: h e]. *)
Definition try_except_Exception {A} (m : M A) (h : exn -> M A) : M A :=
  fun self tr =>
    match m self tr with
    | (Raise (Exception k), self', tr') => h (Exception k) self' tr'
    | r => r
    end.

(** [try: m  except: h], which catches every exception. *)
Definition try_except_all {A} (m : M A) (h : M A) : M A :=
  fun self tr =>
    match m self tr with
    | (Raise _, self', tr') => h self' tr'
    | r => r
    end.

(** [requests.get(url, timeout=...)]. *)
Definition http_get (w : world) (url : string) (timeout : Z) : M response :=
  emit (EvGet url timeout) ;;; lift (w_get w url).

(** [requests.post(url, json=body, timeout=...)]. *)
Definition http_post (w : world) (url : string) (body : payload) (timeout : Z)
  : M response :=
  emit (EvPost url body timeout) ;;; lift (w_post w).

(** [response.json()]. *)
Definition response_json (r : response) : M unit :=
  if body_is_json r then ret tt else raise (Exception "JSONDecodeError").

(** A dict display [{k1: v1, k2: v2, ...}]: keys are inserted from left to
    right. *)
Definition dict {V} (items : list (string * V)) : gmap string V :=
  foldl (fun m kv => <[kv.1 := kv.2]> m) ∅ items.

(** ** The methods of [CostEffectiveAgent] *)

(** [__init__], with the four settings already read from the environment
    (the interval is the result of [int(...)], any integer); both counters
    start at 0. *)
Definition init (id type url : string) (interval : Z) : agent :=
  {| agent_id := id; agent_type := type; dashboard_url := url;
     heartbeat_interval := interval;
     tasks_completed := 0; current_tasks := 0 |}.

Definition get_system_metrics (w : world) : M metrics :=
  try_except_Exception
    (cpu_percent <- lift (w_cpu_percent w) ;;
     memory_percent <- lift (w_memory_percent w) ;;
     disk <- lift (w_disk_usage w) ;;
     ratio <- lift (int_truediv (fst disk) (snd disk)) ;;
     let disk_percent := mul ratio (of_int 100) in
     network <- lift (w_net_io w) ;;
     self <- get_self ;;
     ret {| cpuUsage := PFloat (round cpu_percent 2);
            memoryUsage := PFloat (round memory_percent 2);
            diskUsage := PFloat (round disk_percent 2);
            networkIn := fst network;
            networkOut := snd network;
            tasksCompleted := tasks_completed self;
            currentTasks := current_tasks self |})
    (fun e =>
       print (MsgMetricsError e) ;;;
       self <- get_self ;;
       ret {| cpuUsage := PInt 0;
              memoryUsage := PInt 0;
              diskUsage := PInt 0;
              networkIn := 0;
              networkOut := 0;
              tasksCompleted := tasks_completed self;
              currentTasks := current_tasks self |}).

Definition metadata_url : string := "http://169.254.169.254/latest/meta-data".

Definition capabilities : list string :=
  ["task_execution"; "code_generation"; "monitoring"]%string.

(** [response.text if response.status_code == 200 else None]. *)
Definition text_if_200 (r : response) : pyval :=
  if status_code r =? 200 then VStr (text r) else VNone.

Definition get_instance_metadata (w : world) : M (gmap string pyval) :=
  try_except_all
    (response <- http_get w (metadata_url ++ "/instance-id") 2 ;;
     let instance_id := text_if_200 response in
     instance_type <-
       try_except_all
         (response <- http_get w (metadata_url ++ "/instance-type") 2 ;;
          ret (text_if_200 response))
         (ret VNone) ;;
     self <- get_self ;;
     ret (dict [("instanceId", instance_id);
                ("instanceType", instance_type);
                ("hostname", VStr (w_hostname w));
                ("agentType", VStr (agent_type self));
                ("version", VStr "1.0.0");
                ("capabilities", VList capabilities)]%string))
    (self <- get_self ;;
     ret (dict [("hostname", VStr (w_hostname w));
                ("agentType", VStr (agent_type self));
                ("version", VStr "1.0.0");
                ("capabilities", VList capabilities)]%string)).

(** The items of the dict display [cost_map]. *)
Definition cost_entries : list (string * pyfloat) :=
  [("t2.micro", literal 116 4);
   ("t2.small", literal 23 3);
   ("t2.medium", literal 46 3);
   ("t3.micro", literal 104 4);
   ("t3.small", literal 208 4);
   ("t3.medium", literal 416 4);
   ("m5.large", literal 96 3);
   ("m5.xlarge", literal 192 3);
   ("c5.large", literal 85 3);
   ("c5.xlarge", literal 17 2)]%string.

Definition cost_map : gmap string pyfloat := dict cost_entries.

(** The default of [cost_map.get(instance_type, 0.05)]. *)
Definition default_hourly : pyfloat := literal 5 2.

(** [instance_type] is [None] or a string. *)
Definition calculate_cost (instance_type : option string) : cost :=
  let hourly :=
    match instance_type with
    | Some t => default default_hourly (cost_map !! t)
    | None => default_hourly
    end in
  {| hourly := round hourly 4;
     daily := round (mul hourly (of_int 24)) 2;
     monthly := round (mul (mul hourly (of_int 24)) (of_int 30)) 2 |}.

(** [metadata.get('instanceType')], which is [None] or the text of the
    metadata response. *)
Definition get_instanceType (metadata : gmap string pyval) : option string :=
  match metadata !! "instanceType"%string with
  | Some (VStr t) => Some t
  | _ => None
  end.

(** The status bands of [send_heartbeat]. *)
Definition classify (cpu : pynum) : string :=
  if num_gt cpu 80 then "busy"
  else if num_gt cpu 10 then "running"
  else "idle".

Definition send_heartbeat (w : world) : M bool :=
  try_except_Exception
    (metrics <- get_system_metrics w ;;
     metadata <- get_instance_metadata w ;;
     let cost := calculate_cost (get_instanceType metadata) in
     let cpu := cpuUsage metrics in
     let status := classify cpu in
     let payload :=
       {| p_status := status; p_metrics := metrics; p_cost := cost;
          p_metadata := metadata; p_timestamp := w_now w |} in
     self <- get_self ;;
     let url := (dashboard_url self ++ "/api/agents/" ++ agent_id self
                 ++ "/heartbeat")%string in
     response <- http_post w url payload 10 ;;
     if status_code response =? 200 then
       (result <- response_json response ;;
        print (MsgHeartbeatSent cpu status) ;;;
        ret true)
     else
       (print (MsgHeartbeatFailed (status_code response) (text response)) ;;;
        ret false))
    (fun e => print (MsgSendError e) ;;; ret false).

Definition set_tasks_completed (n : Z) : M unit :=
  self <- get_self ;;
  put_self {| agent_id := agent_id self; agent_type := agent_type self;
              dashboard_url := dashboard_url self;
              heartbeat_interval := heartbeat_interval self;
              tasks_completed := n; current_tasks := current_tasks self |}.

Definition set_current_tasks (n : Z) : M unit :=
  self <- get_self ;;
  put_self {| agent_id := agent_id self; agent_type := agent_type self;
              dashboard_url := dashboard_url self;
              heartbeat_interval := heartbeat_interval self;
              tasks_completed := tasks_completed self; current_tasks := n |}.

Definition when (b : bool) (m : M unit) : M unit := if b then m else ret tt.

Definition simulate_task_activity (w : world) : M unit :=
  (* 10% chance to complete a task *)
  when (lt (w_random1 w) (literal 1 1))
    (self <- get_self ;;
     set_tasks_completed (tasks_completed self + 1) ;;;
     self <- get_self ;;
     print (MsgTaskCompleted (tasks_completed self))) ;;;
  (* 5% chance to start a new task *)
  when (lt (w_random2 w) (literal 5 2))
    (self <- get_self ;;
     set_current_tasks (Z.min (current_tasks self + 1) 5) ;;;
     self <- get_self ;;
     print (MsgTaskStarted (current_tasks self))) ;;;
  (* 8% chance to finish current task *)
  self <- get_self ;;
  when (lt (w_random3 w) (literal 8 2) && (0 <? current_tasks self))
    (set_current_tasks (current_tasks self - 1) ;;;
     self <- get_self ;;
     print (MsgTaskFinished (current_tasks self))).

(** The largest number of seconds that [time.sleep] converts to its 64-bit
    count of nanoseconds. *)
Definition sleep_max_seconds : Z := (2 ^ 63 - 1) / 10 ^ 9.

(** [time.sleep(self.heartbeat_interval)]: [ValueError] for a negative
    length, [OverflowError] for one beyond the timestamp range; otherwise the
    process sleeps, and the sleep ends or is interrupted. *)
Definition sleep (interrupted : bool) : M unit :=
  self <- get_self ;;
  let seconds := heartbeat_interval self in
  if seconds <? 0 then raise (Exception "ValueError")
  else if sleep_max_seconds <? seconds then raise (Exception "OverflowError")
  else
    emit (EvSleep seconds) ;;;
    if interrupted then raise KeyboardInterrupt else ret tt.

(** How one pass of [while True] ends when it ends normally. *)
Inductive loop_ctl : Type := Continue | Break.

Section MainLoop.

(** The call [self.send_heartbeat()] of the loop body. *)
Variable heartbeat : world -> M bool.

(** The [try] block of the loop body. *)
Definition loop_body (w : world) : M loop_ctl :=
  success <- heartbeat w ;;
  simulate_task_activity w ;;;
  when (negb success) (print MsgRetryNextCycle) ;;;
  sleep (w_sleep_interrupted w) ;;;
  ret Continue.

(** One pass: the [try] block with its two handlers.  An exception raised
    by a handler leaves the loop. *)
Definition iteration (w : world) : M loop_ctl :=
  fun self tr =>
    match loop_body w self tr with
    | (Raise KeyboardInterrupt, self', tr') =>
        (print (MsgStopping (agent_id self')) ;;; ret Break) self' tr'
    | (Raise (Exception k), self', tr') =>
        (print (MsgUnexpected (Exception k)) ;;;
         sleep (w_handler_sleep_interrupted w) ;;;
         ret Continue) self' tr'
    | r => r
    end.

(** Where the loop is after the passes observed so far. *)
Inductive loop_status : Type :=
| Looping                 (* about to start the next pass *)
| Stopped                 (* left by [break] *)
| Crashed (e : exn).      (* left by an uncaught exception *)

(** [while True], run against the answers of the outside for the first
    [length ws] passes. *)
Fixpoint loop (ws : list world) (self : agent) (tr : list event)
  : loop_status * agent * list event :=
  match ws with
  | [] => (Looping, self, tr)
  | w :: ws' =>
      match iteration w self tr with
      | (Ok Continue, self', tr') => loop ws' self' tr'
      | (Ok Break, self', tr') => (Stopped, self', tr')
      | (Raise e, self', tr') => (Crashed e, self', tr')
      end
  end.

Definition run_with (ws : list world) (self : agent) (tr : list event)
  : loop_status * agent * list event :=
  loop ws self (tr ++ [EvPrint (MsgStartMonitoring (agent_id self))]).

End MainLoop.

(** [run]. *)
Definition run : list world -> agent -> list event
                 -> loop_status * agent * list event :=
  run_with send_heartbeat.

(** ** Vocabulary of the properties *)

Definition result {A} (x : outcome A * agent * list event) : outcome A := x.1.1.
Definition state_after {R} (x : R * agent * list event) : agent := x.1.2.
Definition trace {R} (x : R * agent * list event) : list event := x.2.

(** [reads_only allowed m]: whatever the outcome, [m] leaves [self] as it
    was and extends the trace by events that satisfy [allowed]. *)
Definition reads_only (allowed : event -> Prop) {A} (m : M A) : Prop :=
  forall self tr, exists r t,
    m self tr = (r, self, tr ++ t) /\ Forall allowed t.

Definition is_print (ev : event) : Prop :=
  match ev with EvPrint _ => True | _ => False end.

Definition is_get (ev : event) : Prop :=
  match ev with EvGet _ _ => True | _ => False end.

(** The status of a posted payload is the band of its own cpu figure. *)
Definition status_classified (ev : event) : Prop :=
  match ev with
  | EvPost _ p _ => p_status p = classify (cpuUsage (p_metrics p))
  | _ => True
  end.

(** A query of the sampler, or the division of the two disk figures, fails
    with the error [e], the queries before it having answered. *)
Inductive sampling_fails (w : world) : exn -> Prop :=
| cpu_fails k :
    w_cpu_percent w = Raise (Exception k) ->
    sampling_fails w (Exception k)
| memory_fails k cpu :
    w_cpu_percent w = Ok cpu ->
    w_memory_percent w = Raise (Exception k) ->
    sampling_fails w (Exception k)
| disk_fails k cpu mem :
    w_cpu_percent w = Ok cpu ->
    w_memory_percent w = Ok mem ->
    w_disk_usage w = Raise (Exception k) ->
    sampling_fails w (Exception k)
| disk_division_fails k cpu mem used total :
    w_cpu_percent w = Ok cpu ->
    w_memory_percent w = Ok mem ->
    w_disk_usage w = Ok (used, total) ->
    int_truediv used total = Raise (Exception k) ->
    sampling_fails w (Exception k)
| net_fails k cpu mem used total ratio :
    w_cpu_percent w = Ok cpu ->
    w_memory_percent w = Ok mem ->
    w_disk_usage w = Ok (used, total) ->
    int_truediv used total = Ok ratio ->
    w_net_io w = Raise (Exception k) ->
    sampling_fails w (Exception k).

(** [r] is [x] rounded to [ndigits] decimal places: the float nearest to a
    decimal [k / 10^ndigits] that lies within half a unit of the last place
    of [x]; infinities and NaN are left as they are. *)
Definition rounded_to (ndigits : Z) (x r : pyfloat) : Prop :=
  match x with
  | FFin q =>
      exists k : Z,
        (Qabs (inject_Z k / inject_Z (10 ^ ndigits) - q)
           <= 1 / (2 * inject_Z (10 ^ ndigits)))%Q
        /\ r = b64_round (inject_Z k / inject_Z (10 ^ ndigits))
  | _ => r = x
  end.

(** The three figures that the specification derives from an hourly rate
    [H]: [round(H, 4)], [round(H * 24, 2)] and [round(H * 24 * 30, 2)]. *)
Definition cost_of_rate (H : pyfloat) : cost :=
  {| hourly := round H 4;
     daily := round (mul H (of_int 24)) 2;
     monthly := round (mul (mul H (of_int 24)) (of_int 30)) 2 |}.

(** The two metadata endpoints. *)
Definition instance_id_url : string := metadata_url ++ "/instance-id".
Definition instance_type_url : string := metadata_url ++ "/instance-type".

(** A metadata lookup fails: the request raises (timeout, network error) or
    the answer is not a 200. *)
Definition lookup_failed (o : outcome response) : Prop :=
  match o with
  | Ok r => status_code r <> 200
  | Raise _ => True
  end.

(** The key is absent from the dict, or bound to [None]. *)
Definition null_or_omitted (md : gmap string pyval) (key : string) : Prop :=
  md !! key = None \/ md !! key = Some VNone.

Definition is_get_of (url : string) (ev : event) : bool :=
  match ev with
  | EvGet u _ => String.eqb u url
  | _ => false
  end.

(** How many GET requests to [url] a trace holds. *)
Definition requests_to (url : string) (t : list event) : nat :=
  length (List.filter (is_get_of url) t).

(** The keys that every metadata dict carries. *)
Definition has_identity (w : world) (self : agent) (md : gmap string pyval)
  : Prop :=
  md !! "hostname"%string = Some (VStr (w_hostname w)) /\
  md !! "agentType"%string = Some (VStr (agent_type self)) /\
  md !! "version"%string = Some (VStr "1.0.0") /\
  md !! "capabilities"%string
  = Some (VList ["task_execution"; "code_generation"; "monitoring"]%string).

(** The payload that [send_heartbeat] builds from a snapshot and a metadata
    dict. *)
Definition heartbeat_payload (w : world) (metrics : metrics)
    (metadata : gmap string pyval) : payload :=
  {| p_status := classify (cpuUsage metrics);
     p_metrics := metrics;
     p_cost := calculate_cost (get_instanceType metadata);
     p_metadata := metadata;
     p_timestamp := w_now w |}.

Definition heartbeat_url (self : agent) : string :=
  dashboard_url self ++ "/api/agents/" ++ agent_id self ++ "/heartbeat".

(** How a heartbeat ends once the POST has been sent, by the answer of the
    dashboard. *)
Definition after_post (w : world) (cpu : pynum) : outcome bool * list event :=
  match w_post w with
  | Ok r =>
      if status_code r =? 200 then
        if body_is_json r
        then (Ok true, [EvPrint (MsgHeartbeatSent cpu (classify cpu))])
        else (Ok false, [EvPrint (MsgSendError (Exception "JSONDecodeError"))])
      else (Ok false, [EvPrint (MsgHeartbeatFailed (status_code r) (text r))])
  | Raise (Exception k) => (Ok false, [EvPrint (MsgSendError (Exception k))])
  | Raise KeyboardInterrupt => (Raise KeyboardInterrupt, [])
  end.

(** The settings of [self], which no method changes. *)
Definition same_config (self self' : agent) : Prop :=
  agent_id self' = agent_id self /\
  agent_type self' = agent_type self /\
  dashboard_url self' = dashboard_url self /\
  heartbeat_interval self' = heartbeat_interval self.

Definition tasks_bounded (self : agent) : Prop := 0 <= current_tasks self <= 5.


Definition is_interrupt {A} (o : outcome A) : bool :=
  match o with
  | Raise KeyboardInterrupt => true
  | _ => false
  end.

(** A Ctrl-C reaches the loop during this pass: while the sampler queries the
    system, during the POST, or during the sleep.  (One that arrives during a
    metadata request is swallowed by the bare [except:].) *)
Definition interrupted (w : world) : bool :=
  is_interrupt (w_cpu_percent w) || is_interrupt (w_memory_percent w)
  || is_interrupt (w_disk_usage w) || is_interrupt (w_net_io w)
  || is_interrupt (w_post w) || w_sleep_interrupted w.


Definition status_of (x : loop_status * agent * list event) : loop_status :=
  x.1.1.



Definition raises_error {A} (o : outcome A) : bool :=
  match o with
  | Raise (Exception _) => true
  | _ => false
  end.

(** ** Sample inputs *)

Definition ok_response (body : string) : response :=
  {| status_code := 200; text := body; body_is_json := true |}.

(** An instance of type t3.medium at 85% cpu, 50% memory and 30% disk, whose
    dashboard answers 200 with a JSON body. *)
Definition sample_world : world :=
  {| w_hostname := "ip-10-0-0-7";
     w_cpu_percent := Ok (of_int 85);
     w_memory_percent := Ok (of_int 50);
     w_disk_usage := Ok (3, 10);
     w_net_io := Ok (1500, 2500);
     w_get := fun url =>
       if String.eqb url (metadata_url ++ "/instance-id")
       then Ok {| status_code := 200; text := "i-0abc"; body_is_json := false |}
       else Ok {| status_code := 200; text := "t3.medium"; body_is_json := false |};
     w_post := Ok (ok_response "{}");
     w_now := "2024-05-01T12:00:00";
     w_random1 := literal 5 1;
     w_random2 := literal 5 1;
     w_random3 := literal 5 1;
     w_sleep_interrupted := false;
     w_handler_sleep_interrupted := false |}.

Definition sample_agent : agent :=
  init "agent-ip-10-0-0-7" "developer" "http://localhost:4001" 30.

Definition sample_metrics : metrics :=
  {| cpuUsage := PFloat (of_int 85);
     memoryUsage := PFloat (of_int 50);
     diskUsage := PFloat (of_int 30);
     networkIn := 1500; networkOut := 2500;
     tasksCompleted := 0; currentTasks := 0 |}.

Definition sample_payload : payload :=
  {| p_status := "busy";
     p_metrics := sample_metrics;
     p_cost := {| hourly := literal 416 4; daily := of_int 1;
                  monthly := literal 2995 2 |};
     p_metadata :=
       dict [("instanceId", VStr "i-0abc");
             ("instanceType", VStr "t3.medium");
             ("hostname", VStr "ip-10-0-0-7");
             ("agentType", VStr "developer");
             ("version", VStr "1.0.0");
             ("capabilities", VList capabilities)]%string;
     p_timestamp := "2024-05-01T12:00:00" |}.

Definition sample_url : string :=
  "http://localhost:4001/api/agents/agent-ip-10-0-0-7/heartbeat".


(** The same host when the metadata endpoint cannot be reached. *)
Definition world_no_metadata : world :=
  {| w_hostname := w_hostname sample_world;
     w_cpu_percent := w_cpu_percent sample_world;
     w_memory_percent := w_memory_percent sample_world;
     w_disk_usage := w_disk_usage sample_world;
     w_net_io := w_net_io sample_world;
     w_get := fun _ => Raise (Exception "ConnectTimeout");
     w_post := w_post sample_world;
     w_now := w_now sample_world;
     w_random1 := w_random1 sample_world;
     w_random2 := w_random2 sample_world;
     w_random3 := w_random3 sample_world;
     w_sleep_interrupted := false;
     w_handler_sleep_interrupted := false |}.

(** The same host when the dashboard answers 200 with a body that is not
    JSON. *)
Definition world_plain_200 : world :=
  {| w_hostname := w_hostname sample_world;
     w_cpu_percent := w_cpu_percent sample_world;
     w_memory_percent := w_memory_percent sample_world;
     w_disk_usage := w_disk_usage sample_world;
     w_net_io := w_net_io sample_world;
     w_get := w_get sample_world;
     w_post := Ok {| status_code := 200; text := "OK"; body_is_json := false |};
     w_now := w_now sample_world;
     w_random1 := w_random1 sample_world;
     w_random2 := w_random2 sample_world;
     w_random3 := w_random3 sample_world;
     w_sleep_interrupted := false;
     w_handler_sleep_interrupted := false |}.

(** The same host when the dashboard answers 500. *)
Definition world_500 : world :=
  {| w_hostname := w_hostname sample_world;
     w_cpu_percent := w_cpu_percent sample_world;
     w_memory_percent := w_memory_percent sample_world;
     w_disk_usage := w_disk_usage sample_world;
     w_net_io := w_net_io sample_world;
     w_get := w_get sample_world;
     w_post := Ok {| status_code := 500; text := "Internal Server Error";
                     body_is_json := false |};
     w_now := w_now sample_world;
     w_random1 := w_random1 sample_world;
     w_random2 := w_random2 sample_world;
     w_random3 := w_random3 sample_world;
     w_sleep_interrupted := false;
     w_handler_sleep_interrupted := false |}.

(** The same host when a Ctrl-C arrives during the sleep. *)
Definition world_ctrl_c : world :=
  {| w_hostname := w_hostname sample_world;
     w_cpu_percent := w_cpu_percent sample_world;
     w_memory_percent := w_memory_percent sample_world;
     w_disk_usage := w_disk_usage sample_world;
     w_net_io := w_net_io sample_world;
     w_get := w_get sample_world;
     w_post := w_post sample_world;
     w_now := w_now sample_world;
     w_random1 := w_random1 sample_world;
     w_random2 := w_random2 sample_world;
     w_random3 := w_random3 sample_world;
     w_sleep_interrupted := true;
     w_handler_sleep_interrupted := false |}.



(** ** Vocabulary of the further properties *)

(** A percentage reported by [psutil], when it is reported, is a finite
    float between 0 and 100. *)
Definition percent_answer (o : outcome pyfloat) : Prop :=
  forall x, o = Ok x -> exists q, x = FFin q /\ (0 <= q <= 100)%Q.

(** The disk figures, when they are reported, are non-negative and the used
    space does not exceed the total. *)
Definition disk_answer (o : outcome (Z * Z)) : Prop :=
  forall used total, o = Ok (used, total) -> 0 <= used <= total.

(** A figure of a snapshot has an exact value between 0 and 100. *)
Definition is_percentage (x : pynum) : Prop :=
  exists q, num_value x = Some q /\ (0 <= q <= 100)%Q.

(** The POST requests of a trace, in order: url, body, timeout. *)
Definition posts (t : list event) : list (string * payload * Z) :=
  flat_map (fun ev => match ev with
                      | EvPost url p n => [(url, p, n)]
                      | _ => []
                      end) t.

(** The instance type that the metadata endpoint makes known: the text of a
    200 answer to the instance-type request, provided the instance-id request
    before it did not raise. *)
Definition reported_type (w : world) : option string :=
  match w_get w instance_id_url with
  | Raise _ => None
  | Ok _ =>
      match w_get w instance_type_url with
      | Ok r => if status_code r =? 200 then Some (text r) else None
      | Raise _ => None
      end
  end.



(** The same host when a Ctrl-C arrives during the cpu query. *)
Definition world_cpu_ctrl_c : world :=
  {| w_hostname := w_hostname sample_world;
     w_cpu_percent := Raise KeyboardInterrupt;
     w_memory_percent := w_memory_percent sample_world;
     w_disk_usage := w_disk_usage sample_world;
     w_net_io := w_net_io sample_world;
     w_get := w_get sample_world;
     w_post := w_post sample_world;
     w_now := w_now sample_world;
     w_random1 := w_random1 sample_world;
     w_random2 := w_random2 sample_world;
     w_random3 := w_random3 sample_world;
     w_sleep_interrupted := false;
     w_handler_sleep_interrupted := false |}.



(** The hourly rate that [calculate_cost] looks up. *)
Definition looked_up_rate (instance_type : option string) : pyfloat :=
  match instance_type with
  | Some t => default default_hourly (cost_map !! t)
  | None => default_hourly
  end.

(** The hourly figure of the estimate is the rate itself, and the three
    figures are positive and ordered. *)
Definition cost_figures_ordered (H : pyfloat) : Prop :=
  exists h d m : Q,
    H = FFin h /\
    cost_of_rate H = {| hourly := FFin h; daily := FFin d; monthly := FFin m |} /\
    (0 < h)%Q /\ (h <= d)%Q /\ (d <= m)%Q.

(** * Properties *)

(** ** Floats *)

Example lit_0_0416 :
  literal 416 4 = FFin (1498797955988901 # 36028797018963968).
Proof. vm_compute. reflexivity. Qed.

Example mul_0_05_24 :
  mul (literal 5 2) (of_int 24) = FFin (1351079888211149 # 1125899906842624).
Proof. vm_compute. reflexivity. Qed.

Example round_half_even_ties :
  round (literal 125 3) 2 = literal 12 2 /\ round (literal 375 3) 2 = literal 38 2
  /\ round (literal 2675 3) 2 = literal 267 2.
Proof. vm_compute. repeat split; reflexivity. Qed.

(** The smallest subnormal, a product that overflows, and the divisions of
    ints. *)
Example float_range :
  b64_round (1 # 2 ^ 1074) = FFin (1 # 2 ^ 1074) /\
  b64_round (1 # 2 ^ 1076) = FFin 0 /\
  mul (of_int (10 ^ 200)) (of_int (10 ^ 200)) = FInf false /\
  int_truediv 3 10 = Ok (literal 3 1) /\
  int_truediv 3 0 = Raise (Exception "ZeroDivisionError") /\
  int_truediv (10 ^ 400) 3 = Raise (Exception "OverflowError").
Proof. vm_compute. repeat split; reflexivity. Qed.

Lemma Qle_bool_false (x y : Q) : Qle_bool x y = false <-> (y < x)%Q.
Proof.
  split; intros H.
  - apply Qnot_le_lt. intros Hle. apply Qle_bool_iff in Hle. congruence.
  - destruct (Qle_bool x y) eqn:E; [|reflexivity].
    apply Qle_bool_iff in E. lra.
Qed.

(** [num_gt] decides the order of the exact values. *)
Lemma num_gt_spec (x : pynum) (q : Q) (z : Z) :
  num_value x = Some q ->
  (num_gt x z = true <-> (inject_Z z < q)%Q) /\
  (num_gt x z = false <-> (q <= inject_Z z)%Q).
Proof.
  destruct x as [n|[a| |]]; simpl; intros Hq; try discriminate;
    injection Hq as <-.
  - rewrite Z.ltb_lt, Z.ltb_ge, <- Zlt_Qlt, <- Zle_Qle. tauto.
  - rewrite negb_true_iff, negb_false_iff, Qle_bool_false, Qle_bool_iff. tauto.
Qed.

(** The nearest integer is within one half. *)
Lemma round_half_even_spec (q : Q) :
  (Qabs (inject_Z (round_half_even q) - q) <= 1 # 2)%Q.
Proof.
  unfold round_half_even.
  pose proof (Qfloor_le q) as Hlo.
  pose proof (Qlt_floor q) as Hhi.
  rewrite inject_Z_plus in Hhi. change (inject_Z 1) with 1%Q in Hhi.
  apply Qabs_Qle_condition.
  destruct (q - inject_Z (Qfloor q) ?= 1 # 2)%Q eqn:E.
  - apply Qeq_alt in E.
    destruct (Z.even (Qfloor q));
      [|rewrite inject_Z_plus; change (inject_Z 1) with 1%Q]; lra.
  - apply Qlt_alt in E. lra.
  - apply Qgt_alt in E. rewrite inject_Z_plus.
    change (inject_Z 1) with 1%Q. lra.
Qed.

(** ** Methods that only read [self] *)

Section ReadsOnly.

Variable allowed : event -> Prop.

Local Abbreviation reads_only := (reads_only allowed).

Lemma reads_only_ret {A} (a : A) : reads_only (ret a).
Proof.
  intros self tr. exists (Ok a), []. rewrite app_nil_r. split; [reflexivity|constructor].
Qed.

Lemma reads_only_raise {A} (e : exn) : reads_only (@raise A e).
Proof.
  intros self tr. exists (Raise e), []. rewrite app_nil_r. split; [reflexivity|constructor].
Qed.

Lemma reads_only_lift {A} (o : outcome A) : reads_only (lift o).
Proof.
  intros self tr. exists o, []. rewrite app_nil_r. split; [reflexivity|constructor].
Qed.

Lemma reads_only_get_self : reads_only get_self.
Proof.
  intros self tr. exists (Ok self), []. rewrite app_nil_r. split; [reflexivity|constructor].
Qed.

Lemma reads_only_emit (ev : event) : allowed ev -> reads_only (emit ev).
Proof.
  intros Hev self tr. exists (Ok tt), [ev]. split; [reflexivity|].
  constructor; [exact Hev|constructor].
Qed.

Lemma reads_only_bind {A B} (m : M A) (f : A -> M B) :
  reads_only m -> (forall a, reads_only (f a)) -> reads_only (bind m f).
Proof.
  intros Hm Hf self tr. unfold bind.
  destruct (Hm self tr) as (r & t & -> & Ht).
  destruct r as [a|e].
  - destruct (Hf a self (tr ++ t)) as (r' & t' & -> & Ht').
    exists r', (t ++ t'). rewrite app_assoc. split; [reflexivity|].
    apply Forall_app; split; assumption.
  - exists (Raise e), t. split; [reflexivity|assumption].
Qed.

Lemma reads_only_try_except_Exception {A} (m : M A) (h : exn -> M A) :
  reads_only m -> (forall e, reads_only (h e)) ->
  reads_only (try_except_Exception m h).
Proof.
  intros Hm Hh self tr. unfold try_except_Exception.
  destruct (Hm self tr) as (r & t & -> & Ht).
  destruct r as [a|[k|]].
  - exists (Ok a), t. split; [reflexivity|assumption].
  - destruct (Hh (Exception k) self (tr ++ t)) as (r' & t' & -> & Ht').
    exists r', (t ++ t'). rewrite app_assoc. split; [reflexivity|].
    apply Forall_app; split; assumption.
  - exists (Raise KeyboardInterrupt), t. split; [reflexivity|assumption].
Qed.

Lemma reads_only_try_except_all {A} (m h : M A) :
  reads_only m -> reads_only h -> reads_only (try_except_all m h).
Proof.
  intros Hm Hh self tr. unfold try_except_all.
  destruct (Hm self tr) as (r & t & -> & Ht).
  destruct r as [a|e].
  - exists (Ok a), t. split; [reflexivity|assumption].
  - destruct (Hh self (tr ++ t)) as (r' & t' & -> & Ht').
    exists r', (t ++ t'). rewrite app_assoc. split; [reflexivity|].
    apply Forall_app; split; assumption.
Qed.

End ReadsOnly.

(** Decompose a method into its primitive steps. *)
Ltac reads_only_step :=
  lazymatch goal with
  | |- reads_only _ (bind _ _) => apply reads_only_bind; [|intros ?]
  | |- reads_only _ (ret _) => apply reads_only_ret
  | |- reads_only _ (raise _) => apply reads_only_raise
  | |- reads_only _ (lift _) => apply reads_only_lift
  | |- reads_only _ get_self => apply reads_only_get_self
  | |- reads_only _ (emit _) => apply reads_only_emit
  | |- reads_only _ (print _) => apply reads_only_emit
  | |- reads_only _ (try_except_Exception _ _) =>
      apply reads_only_try_except_Exception; [|intros ?]
  | |- reads_only _ (try_except_all _ _) => apply reads_only_try_except_all
  | |- reads_only _ (http_get _ _ _) => unfold http_get
  | |- reads_only _ (http_post _ _ _ _) => unfold http_post
  | |- reads_only _ (response_json _) => unfold response_json
  | |- reads_only _ (if ?b then _ else _) => destruct b
  | |- reads_only _ _ => progress cbv zeta
  end.

Ltac reads_only_steps := repeat reads_only_step.

Lemma get_system_metrics_reads_only (P : event -> Prop) (w : world) :
  (forall m, P (EvPrint m)) -> reads_only P (get_system_metrics w).
Proof.
  intros HP. unfold get_system_metrics. reads_only_steps; apply HP.
Qed.

Lemma get_instance_metadata_reads_only (P : event -> Prop) (w : world) :
  (forall url t, P (EvGet url t)) -> reads_only P (get_instance_metadata w).
Proof.
  intros HP. unfold get_instance_metadata. reads_only_steps; apply HP.
Qed.

Lemma send_heartbeat_reads_only (P : event -> Prop) (w : world) :
  (forall m, P (EvPrint m)) ->
  (forall url t, P (EvGet url t)) ->
  (forall url p t,
      p_status p = classify (cpuUsage (p_metrics p)) -> P (EvPost url p t)) ->
  reads_only P (send_heartbeat w).
Proof.
  intros Hprint Hget Hpost. unfold send_heartbeat.
  apply reads_only_try_except_Exception;
    [|intros ?; reads_only_steps; apply Hprint].
  apply reads_only_bind;
    [apply get_system_metrics_reads_only; exact Hprint|intros ?].
  apply reads_only_bind;
    [apply get_instance_metadata_reads_only; exact Hget|intros ?].
  reads_only_steps; try apply Hprint. apply Hpost. reflexivity.
Qed.

Lemma send_heartbeat_status_classified (w : world) :
  reads_only status_classified (send_heartbeat w).
Proof.
  apply send_heartbeat_reads_only; intros; try exact I. assumption.
Qed.

(** The sender leaves [self] as it is. *)
Lemma send_heartbeat_self (w : world) (self : agent) (tr : list event) :
  state_after (send_heartbeat w self tr) = self.
Proof.
  destruct (send_heartbeat_status_classified w self tr) as (r & t & -> & _).
  reflexivity.
Qed.

(** C1: the status is computed from the cpu figure alone, by fixed bands:
    [0,10] is idle, (10,80] is running, (80,100] is busy, the bounds 10 and 80
    belonging to the lower band; and the status of every heartbeat that
    [send_heartbeat] posts is the band of the cpuUsage it carries. *)
Theorem status_bands :
  (forall (cpu : pynum) (q : Q),
      num_value cpu = Some q ->
      ((0 <= q <= 10)%Q -> classify cpu = "idle"%string) /\
      ((10 < q <= 80)%Q -> classify cpu = "running"%string) /\
      ((80 < q <= 100)%Q -> classify cpu = "busy"%string)) /\
  (forall (w : world) (self : agent) (url : string) (p : payload) (t : Z),
      EvPost url p t ∈ trace (send_heartbeat w self []) ->
      p_status p = classify (cpuUsage (p_metrics p))).
Proof.
  split.
  - intros cpu q Hq. unfold classify.
    destruct (num_gt_spec cpu q 80 Hq) as [H80t H80f].
    destruct (num_gt_spec cpu q 10 Hq) as [H10t H10f].
    change (inject_Z 80) with 80%Q in *. change (inject_Z 10) with 10%Q in *.
    repeat split; intros [Hlo Hhi].
    + assert (E80 : num_gt cpu 80 = false) by (apply H80f; lra).
      assert (E10 : num_gt cpu 10 = false) by (apply H10f; lra).
      rewrite E80, E10. reflexivity.
    + assert (E80 : num_gt cpu 80 = false) by (apply H80f; lra).
      assert (E10 : num_gt cpu 10 = true) by (apply H10t; lra).
      rewrite E80, E10. reflexivity.
    + assert (E80 : num_gt cpu 80 = true) by (apply H80t; lra).
      rewrite E80. reflexivity.
  - intros w self url p t Hin.
    destruct (send_heartbeat_status_classified w self []) as (r & tr' & E & Hall).
    rewrite E in Hin. simpl in Hin.
    rewrite Forall_forall in Hall. apply (Hall _ Hin).
Qed.

Example end_to_end :
  send_heartbeat sample_world sample_agent []
  = (Ok true, sample_agent,
     [EvGet (metadata_url ++ "/instance-id") 2;
      EvGet (metadata_url ++ "/instance-type") 2;
      EvPost sample_url sample_payload 10;
      EvPrint (MsgHeartbeatSent (PFloat (of_int 85)) "busy")]).
Proof. vm_compute. reflexivity. Qed.

Lemma status_bands_witness :
  classify (PFloat (FFin 10)) = "idle"%string /\
  classify (PInt 80) = "running"%string /\
  classify (PFloat (FFin 100)) = "busy"%string /\
  p_status sample_payload = classify (cpuUsage (p_metrics sample_payload)).
Proof.
  pose proof (proj1 status_bands) as Hbands.
  pose proof (proj2 status_bands sample_world sample_agent
                sample_url sample_payload 10) as Hposted.
  split; [|split; [|split]].
  - apply (Hbands (PFloat (FFin 10)) 10%Q eq_refl). lra.
  - apply (Hbands (PInt 80) 80%Q eq_refl). lra.
  - apply (Hbands (PFloat (FFin 100)) 100%Q eq_refl). lra.
  - apply Hposted. apply list_elem_of_In. vm_compute. tauto.
Defined.

(** ** The metric sampler *)




(** A disk of size 0 makes the division raise, which is handled the same
    way. *)
Example zero_total_disk (w : world) (cpu mem : pyfloat) (used : Z) :
  w_cpu_percent w = Ok cpu -> w_memory_percent w = Ok mem ->
  w_disk_usage w = Ok (used, 0) ->
  sampling_fails w (Exception "ZeroDivisionError").
Proof.
  intros Hcpu Hmem Hdisk.
  apply (disk_division_fails w _ cpu mem used 0 Hcpu Hmem Hdisk). reflexivity.
Qed.

(** When some query raises an error and no Ctrl-C arrives, the first query
    that fails is a sampling failure. *)
Lemma any_failure_is_sampling_failure (w : world) :
  is_interrupt (w_cpu_percent w) || is_interrupt (w_memory_percent w)
  || is_interrupt (w_disk_usage w) || is_interrupt (w_net_io w) = false ->
  raises_error (w_cpu_percent w) || raises_error (w_memory_percent w)
  || raises_error (w_disk_usage w) || raises_error (w_net_io w) = true ->
  exists e, sampling_fails w e.
Proof.
  intros Hquiet Hfail.
  destruct (w_cpu_percent w) as [cpu|[k|]] eqn:Hcpu;
    [|exists (Exception k); apply (cpu_fails w k Hcpu)|discriminate].
  destruct (w_memory_percent w) as [mem|[k|]] eqn:Hmem;
    [|exists (Exception k); apply (memory_fails w k cpu Hcpu Hmem)|discriminate].
  destruct (w_disk_usage w) as [[used total]|[k|]] eqn:Hdisk;
    [|exists (Exception k); apply (disk_fails w k cpu mem Hcpu Hmem Hdisk)
     |discriminate].
  destruct (int_truediv used total) as [ratio|[k|]] eqn:Hdiv.
  - destruct (w_net_io w) as [[recv sent]|[k|]] eqn:Hnet;
      [discriminate| |discriminate].
    exists (Exception k).
    apply (net_fails w k cpu mem used total ratio Hcpu Hmem Hdisk Hdiv Hnet).
  - exists (Exception k).
    apply (disk_division_fails w k cpu mem used total Hcpu Hmem Hdisk Hdiv).
  - unfold int_truediv in Hdiv. destruct (total =? 0); [discriminate|].
    destruct (b64_round _); discriminate.
Qed.

(** [round] gives a float that is its argument rounded to [ndigits]
    places. *)
Lemma round_rounded_to (ndigits : Z) (x : pyfloat) :
  0 <= ndigits -> rounded_to ndigits x (round x ndigits).
Proof.
  intros Hnd. destruct x as [q| |]; unfold rounded_to, round; try reflexivity.
  exists (round_half_even (q * inject_Z (10 ^ ndigits))). split; [|reflexivity].
  assert (Hp : (0 < inject_Z (10 ^ ndigits))%Q).
  { change 0%Q with (inject_Z 0). rewrite <- Zlt_Qlt.
    apply Z.pow_pos_nonneg; lia. }
  pose proof (round_half_even_spec (q * inject_Z (10 ^ ndigits))) as Hk.
  set (p := inject_Z (10 ^ ndigits)) in *.
  set (k := inject_Z (round_half_even (q * p))) in *.
  apply Qabs_Qle_condition in Hk. apply Qabs_Qle_condition.
  assert (Hpne : ~ (p == 0)%Q) by (apply Qnot_eq_sym, Qlt_not_eq, Hp).
  destruct Hk as [Hlo Hhi].
  split.
  - setoid_replace (k / p - q)%Q with ((k - q * p) / p)%Q using relation Qeq by (field; exact Hpne).
    setoid_replace (- (1 / (2 * p)))%Q with ((- (1 # 2)) / p)%Q
      using relation Qeq by (field; exact Hpne).
    apply Qle_shift_div_l; [exact Hp|].
    setoid_replace (- (1 # 2) / p * p)%Q with (- (1 # 2))%Q using relation Qeq by (field; exact Hpne).
    exact Hlo.
  - setoid_replace (k / p - q)%Q with ((k - q * p) / p)%Q using relation Qeq by (field; exact Hpne).
    setoid_replace (1 / (2 * p))%Q with ((1 # 2) / p)%Q using relation Qeq by (field; exact Hpne).
    apply Qle_shift_div_r; [exact Hp|].
    setoid_replace ((1 # 2) / p * p)%Q with (1 # 2)%Q using relation Qeq by (field; exact Hpne).
    exact Hhi.
Qed.

(** C9: when every query of the sampler answers, the snapshot carries the
    cpu, memory and disk percentages rounded to 2 decimal places, and the two
    network counters exactly as [psutil] reported them. *)
Theorem successful_sample_rounds_percentages
    (w : world) (self : agent) (tr : list event)
    (cpu mem ratio : pyfloat) (used total recv sent : Z) :
  w_cpu_percent w = Ok cpu ->
  w_memory_percent w = Ok mem ->
  w_disk_usage w = Ok (used, total) ->
  int_truediv used total = Ok ratio ->
  w_net_io w = Ok (recv, sent) ->
  let disk_percent := mul ratio (of_int 100) in
  get_system_metrics w self tr
  = (Ok {| cpuUsage := PFloat (round cpu 2);
           memoryUsage := PFloat (round mem 2);
           diskUsage := PFloat (round disk_percent 2);
           networkIn := recv;
           networkOut := sent;
           tasksCompleted := tasks_completed self;
           currentTasks := current_tasks self |}, self, tr)
  /\ rounded_to 2 cpu (round cpu 2)
  /\ rounded_to 2 mem (round mem 2)
  /\ rounded_to 2 disk_percent (round disk_percent 2).
Proof.
  intros Hcpu Hmem Hdisk Hdiv Hnet disk_percent.
  split; [|repeat split; apply round_rounded_to; lia].
  unfold get_system_metrics, try_except_Exception, bind, lift.
  rewrite Hcpu, Hmem, Hdisk. simpl. rewrite Hdiv, Hnet. reflexivity.
Qed.

Lemma successful_sample_rounds_percentages_witness :
  get_system_metrics sample_world sample_agent []
  = (Ok {| cpuUsage := PFloat (round (of_int 85) 2);
           memoryUsage := PFloat (round (of_int 50) 2);
           diskUsage :=
             PFloat (round (mul (literal 3 1) (of_int 100)) 2);
           networkIn := 1500;
           networkOut := 2500;
           tasksCompleted := 0;
           currentTasks := 0 |}, sample_agent, [])
  /\ rounded_to 2 (mul (literal 3 1) (of_int 100)) (of_int 30).
Proof.
  destruct (successful_sample_rounds_percentages sample_world sample_agent []
              (of_int 85) (of_int 50) (literal 3 1) 3 10 1500 2500
              eq_refl eq_refl eq_refl eq_refl eq_refl) as (Hrun & _ & _ & Hdisk).
  split; [exact Hrun|exact Hdisk].
Defined.

(** ** Dict displays *)

Lemma dict_snoc {V} (items : list (string * V)) (k : string) (v : V) :
  dict (items ++ [(k, v)]) = <[k := v]> (dict items).
Proof. unfold dict. rewrite foldl_app. reflexivity. Qed.

Lemma dict_lookup_None {V} (items : list (string * V)) (k : string) :
  k ∉ items.*1 -> dict items !! k = None.
Proof.
  induction items as [|[k' v'] items IH] using rev_ind; intros Hk.
  - apply lookup_empty.
  - rewrite dict_snoc. rewrite fmap_app in Hk. simpl in Hk.
    rewrite lookup_insert_ne.
    + apply IH. intros Hin. apply Hk. apply elem_of_app. left. exact Hin.
    + intros ->. apply Hk. apply elem_of_app. right. apply list_elem_of_singleton.
      reflexivity.
Qed.

Lemma dict_lookup_Some_inv {V} (items : list (string * V)) (k : string) (v : V) :
  dict items !! k = Some v -> (k, v) ∈ items.
Proof.
  induction items as [|[k' v'] items IH] using rev_ind; intros Hk.
  - unfold dict in Hk. simpl in Hk. rewrite lookup_empty in Hk. discriminate.
  - rewrite dict_snoc in Hk. apply elem_of_app.
    destruct (decide (k' = k)) as [->|Hne].
    + rewrite lookup_insert_eq in Hk. injection Hk as ->.
      right. apply list_elem_of_singleton. reflexivity.
    + rewrite lookup_insert_ne in Hk by exact Hne. left. apply IH, Hk.
Qed.

Lemma dict_lookup_Some {V} (items : list (string * V)) (k : string) (v : V) :
  NoDup items.*1 -> (k, v) ∈ items -> dict items !! k = Some v.
Proof.
  induction items as [|[k' v'] items IH] using rev_ind; intros Hnd Hin.
  - apply elem_of_nil in Hin. contradiction.
  - rewrite dict_snoc. rewrite fmap_app in Hnd. simpl in Hnd.
    apply NoDup_app in Hnd as (Hnd & Hfresh & _).
    apply elem_of_app in Hin as [Hin|Hin].
    + rewrite lookup_insert_ne; [apply IH; assumption|].
      intros ->. apply (Hfresh k).
      * apply list_elem_of_fmap. exists (k, v). split; [reflexivity|exact Hin].
      * apply list_elem_of_singleton. reflexivity.
    + apply list_elem_of_singleton in Hin. injection Hin as -> ->.
      apply lookup_insert_eq.
Qed.

(** ** The cost estimator *)

Lemma cost_entries_NoDup : NoDup cost_entries.*1.
Proof. apply (bool_decide_unpack _). vm_compute. exact I. Qed.

(** The table holds exactly the ten listed rates. *)
Lemma cost_map_lookup (T : string) (H : pyfloat) :
  cost_map !! T = Some H <-> (T, H) ∈ cost_entries.
Proof.
  split.
  - apply dict_lookup_Some_inv.
  - apply dict_lookup_Some, cost_entries_NoDup.
Qed.



(** The estimates in decimal, for the ten types and the default. *)
Example cost_table :
  map (fun T => calculate_cost (Some T)) cost_entries.*1 ++ [calculate_cost None]
  = map (fun '(h, d, m) => {| hourly := h; daily := d; monthly := m |})
      [(literal 116 4, literal 28 2, literal 835 2);
       (literal 23 3, literal 55 2, literal 1656 2);
       (literal 46 3, literal 11 1, literal 3312 2);
       (literal 104 4, literal 25 2, literal 749 2);
       (literal 208 4, literal 5 1, literal 1498 2);
       (literal 416 4, literal 1 0, literal 2995 2);
       (literal 96 3, literal 23 1, literal 6912 2);
       (literal 192 3, literal 461 2, literal 13824 2);
       (literal 85 3, literal 204 2, literal 612 1);
       (literal 17 2, literal 408 2, literal 1224 1);
       (literal 5 2, literal 12 1, literal 36 0)].
Proof. vm_compute. reflexivity. Qed.







(** ** The metadata resolver *)

(** Both endpoints are asked at most once; an error of the first request
    skips the second and gives the short dict, an error of the second one
    leaves [instanceType] at [None]. *)
Lemma get_instance_metadata_run (w : world) (self : agent) (tr : list event) :
  get_instance_metadata w self tr =
  match w_get w instance_id_url with
  | Ok r1 =>
      (Ok (dict [("instanceId", text_if_200 r1);
                 ("instanceType",
                   match w_get w instance_type_url with
                   | Ok r2 => text_if_200 r2
                   | Raise _ => VNone
                   end);
                 ("hostname", VStr (w_hostname w));
                 ("agentType", VStr (agent_type self));
                 ("version", VStr "1.0.0");
                 ("capabilities", VList capabilities)]%string),
       self, tr ++ [EvGet instance_id_url 2; EvGet instance_type_url 2])
  | Raise _ =>
      (Ok (dict [("hostname", VStr (w_hostname w));
                 ("agentType", VStr (agent_type self));
                 ("version", VStr "1.0.0");
                 ("capabilities", VList capabilities)]%string),
       self, tr ++ [EvGet instance_id_url 2])
  end.
Proof.
  unfold get_instance_metadata, try_except_all, http_get, bind, emit, lift,
    get_self, ret.
  fold instance_id_url. fold instance_type_url.
  destruct (w_get w instance_id_url) as [r1|e1]; [|reflexivity].
  rewrite <- app_assoc.
  destruct (w_get w instance_type_url) as [r2|e2]; reflexivity.
Qed.

Lemma full_dict_has_identity (w : world) (self : agent) (id type : pyval) :
  has_identity w self
    (dict [("instanceId", id); ("instanceType", type);
           ("hostname", VStr (w_hostname w));
           ("agentType", VStr (agent_type self));
           ("version", VStr "1.0.0");
           ("capabilities", VList capabilities)]%string).
Proof. repeat split; reflexivity. Qed.

Lemma short_dict_has_identity (w : world) (self : agent) :
  has_identity w self
    (dict [("hostname", VStr (w_hostname w));
           ("agentType", VStr (agent_type self));
           ("version", VStr "1.0.0");
           ("capabilities", VList capabilities)]%string).
Proof. repeat split; reflexivity. Qed.

(** C10: on every branch, the one where all lookups fail included,
    [get_instance_metadata] returns a dict that holds the hostname, agentType
    equal to the configured agent type, version '1.0.0' and the capabilities
    ['task_execution', 'code_generation', 'monitoring']. *)
Theorem metadata_always_has_identity
    (w : world) (self : agent) (tr : list event) :
  exists md : gmap string pyval,
    result (get_instance_metadata w self tr) = Ok md /\
    md !! "hostname"%string = Some (VStr (w_hostname w)) /\
    md !! "agentType"%string = Some (VStr (agent_type self)) /\
    md !! "version"%string = Some (VStr "1.0.0") /\
    md !! "capabilities"%string
    = Some (VList ["task_execution"; "code_generation"; "monitoring"]%string).
Proof.
  rewrite get_instance_metadata_run.
  destruct (w_get w instance_id_url) as [r1|e1].
  - eexists. split; [reflexivity|]. apply full_dict_has_identity.
  - eexists. split; [reflexivity|]. apply short_dict_has_identity.
Qed.

Example metadata_without_endpoint :
  result (get_instance_metadata world_no_metadata sample_agent [])
  = Ok (dict [("hostname", VStr "ip-10-0-0-7");
              ("agentType", VStr "developer");
              ("version", VStr "1.0.0");
              ("capabilities", VList capabilities)]%string).
Proof. vm_compute. reflexivity. Qed.

Lemma requests_to_two (url u1 u2 : string) :
  u1 <> u2 -> (requests_to url [EvGet u1 2; EvGet u2 2] <= 1)%nat.
Proof.
  intros Hne. unfold requests_to. simpl.
  destruct (String.eqb_spec u1 url) as [->|H1];
    destruct (String.eqb_spec u2 url) as [->|H2]; simpl; try lia.
  contradiction.
Qed.

Lemma requests_to_one (url u1 : string) :
  (requests_to url [EvGet u1 2] <= 1)%nat.
Proof.
  unfold requests_to. simpl. destruct (String.eqb u1 url); simpl; lia.
Qed.

(** The resolver returns a dict whatever the two requests do, with the
    fields of the failed lookups at [None] or left out, after at most one
    request to each endpoint. *)
Lemma get_instance_metadata_absorbs_failures
    (w : world) (self : agent) (tr : list event) :
  exists (md : gmap string pyval) (t : list event),
    get_instance_metadata w self tr = (Ok md, self, tr ++ t) /\
    (lookup_failed (w_get w instance_id_url) ->
     null_or_omitted md "instanceId") /\
    (lookup_failed (w_get w instance_type_url) ->
     null_or_omitted md "instanceType") /\
    (forall url, (requests_to url t <= 1)%nat) /\
    Forall is_get t.
Proof.
  rewrite get_instance_metadata_run.
  destruct (w_get w instance_id_url) as [r1|e1].
  - eexists _, _. split; [reflexivity|].
    split; [|split; [|split]].
    + unfold lookup_failed, text_if_200. intros Hfail.
      apply Z.eqb_neq in Hfail. rewrite Hfail. right. reflexivity.
    + destruct (w_get w instance_type_url) as [r2|e2].
      * unfold lookup_failed, text_if_200. intros Hfail.
        apply Z.eqb_neq in Hfail. rewrite Hfail. right. reflexivity.
      * intros _. right. reflexivity.
    + intros url. apply requests_to_two. discriminate.
    + repeat constructor.
  - eexists _, _. split; [reflexivity|].
    split; [|split; [|split]].
    + intros _. left. reflexivity.
    + intros _. left. reflexivity.
    + intros url. apply requests_to_one.
    + repeat constructor.
Qed.


(** ** The heartbeat sender *)

Lemma get_system_metrics_self (w : world) (self : agent) (tr : list event) :
  state_after (get_system_metrics w self tr) = self.
Proof.
  destruct (get_system_metrics_reads_only (fun _ => True) w (fun _ => I) self tr)
    as (r & t & -> & _).
  reflexivity.
Qed.

(** [send_heartbeat], step by step: the snapshot, the metadata, the POST and
    what follows its answer. *)
Lemma send_heartbeat_run (w : world) (self : agent) (tr : list event) :
  send_heartbeat w self tr =
  match get_system_metrics w self tr with
  | (Ok metrics, _, t1) =>
      match get_instance_metadata w self t1 with
      | (Ok metadata, _, t2) =>
          let p := heartbeat_payload w metrics metadata in
          (fst (after_post w (cpuUsage metrics)), self,
           (t2 ++ [EvPost (heartbeat_url self) p 10])
             ++ snd (after_post w (cpuUsage metrics)))
      | (Raise e, _, t2) => (Raise e, self, t2)
      end
  | (Raise (Exception k), _, t1) =>
      (Ok false, self, t1 ++ [EvPrint (MsgSendError (Exception k))])
  | (Raise KeyboardInterrupt, _, t1) => (Raise KeyboardInterrupt, self, t1)
  end.
Proof.
  unfold send_heartbeat, try_except_Exception.
  unfold bind at 1.
  pose proof (get_system_metrics_self w self tr) as Hself.
  destruct (get_system_metrics w self tr) as [[r s1] t1].
  unfold state_after in Hself. simpl in Hself. subst s1.
  destruct r as [metrics|[k|]]; [|reflexivity|reflexivity].
  unfold bind at 1. rewrite get_instance_metadata_run.
  unfold after_post, heartbeat_payload, heartbeat_url, http_post, response_json,
    print, emit, lift, raise, ret, get_self, bind.
  destruct (w_get w instance_id_url) as [r1|e1];
    (destruct (w_post w) as [r|[k|]];
     [|reflexivity|cbn [fst snd]; rewrite app_nil_r; reflexivity];
     cbn [fst snd]; destruct (status_code r =? 200); [|reflexivity];
     destruct (body_is_json r); reflexivity).
Qed.



(** A POST answered with another status than 200, or one that fails with an
    error, gives [False] and raises nothing. *)
Lemma send_heartbeat_false_on_failure (w : world) (self : agent)
    (tr : list event) :
  (exists k, w_post w = Raise (Exception k)) \/
  (exists r, w_post w = Ok r /\ status_code r <> 200) ->
  result (send_heartbeat w self tr) = Ok false \/
  result (send_heartbeat w self tr) = Raise KeyboardInterrupt /\
  result (get_system_metrics w self tr) = Raise KeyboardInterrupt.
Proof.
  intros Hpost. rewrite send_heartbeat_run.
  destruct (get_system_metrics w self tr) as [[[metrics|[k|]] s1] t1];
    unfold result; cbn [fst]; [|left; reflexivity|right; split; reflexivity].
  rewrite get_instance_metadata_run. unfold after_post. left.
  destruct Hpost as [[k ->]|(r & -> & Hcode)].
  - destruct (w_get w instance_id_url); reflexivity.
  - apply Z.eqb_neq in Hcode. rewrite Hcode.
    destruct (w_get w instance_id_url); reflexivity.
Qed.

Example heartbeat_500_is_false :
  result (send_heartbeat world_500 sample_agent []) = Ok false.
Proof. vm_compute. reflexivity. Qed.

(** C5 at a 200 answer whose body is not JSON: the POST was answered 200, yet
    [response.json()] raises inside the [try] block and [send_heartbeat]
    returns [False], after printing the error of the decoder. *)
Theorem heartbeat_200_with_plain_body_is_false :
  w_post world_plain_200
  = Ok {| status_code := 200; text := "OK"; body_is_json := false |} /\
  send_heartbeat world_plain_200 sample_agent []
  = (Ok false, sample_agent,
     [EvGet instance_id_url 2;
      EvGet instance_type_url 2;
      EvPost sample_url sample_payload 10;
      EvPrint (MsgSendError (Exception "JSONDecodeError"))]).
Proof. split; vm_compute; reflexivity. Qed.

Lemma requests_to_app (url : string) (t1 t2 : list event) :
  requests_to url (t1 ++ t2) = (requests_to url t1 + requests_to url t2)%nat.
Proof. unfold requests_to. rewrite List.filter_app, length_app. reflexivity. Qed.

Lemma requests_to_prints (url : string) (t : list event) :
  Forall is_print t -> requests_to url t = 0%nat.
Proof.
  induction 1 as [|ev t Hev _ IH]; [reflexivity|].
  destruct ev; try contradiction. exact IH.
Qed.

Lemma after_post_prints (w : world) (cpu : pynum) :
  Forall is_print (snd (after_post w cpu)).
Proof.
  unfold after_post.
  destruct (w_post w) as [r|[k|]];
    [destruct (status_code r =? 200); [destruct (body_is_json r)|]| |];
    repeat constructor.
Qed.

(** One heartbeat sends at most one request to each metadata endpoint. *)
Lemma send_heartbeat_requests (w : world) (self : agent) (tr : list event)
    (url : string) :
  (requests_to url (trace (send_heartbeat w self tr))
   <= requests_to url tr + 1)%nat.
Proof.
  rewrite send_heartbeat_run.
  destruct (get_system_metrics_reads_only is_print w (fun _ => I) self tr)
    as (r & t1 & -> & Hprints).
  pose proof (requests_to_prints url t1 Hprints) as H1.
  destruct r as [metrics|[k|]]; unfold trace; cbn [snd].
  - destruct (get_instance_metadata_absorbs_failures w self (tr ++ t1))
      as (md & t2 & -> & _ & _ & Hreq & _).
    cbn [snd]. specialize (Hreq url).
    pose proof (requests_to_prints url _
                  (after_post_prints w (cpuUsage metrics))) as H3.
    rewrite !requests_to_app, H1, H3.
    change (requests_to url [EvPost (heartbeat_url self)
                               (heartbeat_payload w metrics md) 10]) with 0%nat.
    lia.
  - rewrite !requests_to_app, H1. change (requests_to url [_]) with 0%nat. lia.
  - rewrite !requests_to_app, H1. lia.
Qed.

(** C8: a metadata lookup that fails (the request raises, or the answer is
    not a 200) leaves its field at [None] or out of the returned dict; the
    resolver does not raise, whatever the two requests do; and the lookup is
    not tried again: the resolver, and the whole heartbeat around it, send at
    most one request to each endpoint. *)
Theorem metadata_lookup_failure_is_absorbed
    (w : world) (self : agent) (tr : list event) :
  (exists (md : gmap string pyval) (t : list event),
      get_instance_metadata w self tr = (Ok md, self, tr ++ t) /\
      (lookup_failed (w_get w instance_id_url) ->
       null_or_omitted md "instanceId") /\
      (lookup_failed (w_get w instance_type_url) ->
       null_or_omitted md "instanceType") /\
      (forall url, (requests_to url t <= 1)%nat)) /\
  (forall url,
      (requests_to url (trace (send_heartbeat w self [])) <= 1)%nat).
Proof.
  split.
  - destruct (get_instance_metadata_absorbs_failures w self tr)
      as (md & t & Hrun & Hid & Htype & Hreq & _).
    exists md, t. repeat split; assumption.
  - intros url. apply (send_heartbeat_requests w self [] url).
Qed.

Lemma metadata_lookup_failure_is_absorbed_witness :
  exists (md : gmap string pyval) (t : list event),
    get_instance_metadata world_no_metadata sample_agent []
    = (Ok md, sample_agent, t) /\
    null_or_omitted md "instanceId" /\
    null_or_omitted md "instanceType".
Proof.
  destruct (proj1 (metadata_lookup_failure_is_absorbed
                     world_no_metadata sample_agent []))
    as (md & t & Hrun & Hid & Htype & _).
  exists md, t. split; [exact Hrun|].
  split; [apply Hid; exact I|apply Htype; exact I].
Defined.

(** ** Task counters *)

Lemma simulate_task_activity_run (w : world) (self : agent) (tr : list event) :
  exists (self' : agent) (t : list event),
    simulate_task_activity w self tr = (Ok tt, self', tr ++ t) /\
    same_config self self' /\
    tasks_completed self <= tasks_completed self' /\
    (tasks_bounded self -> tasks_bounded self') /\
    Forall is_print t.
Proof.
  unfold simulate_task_activity, tasks_bounded, same_config.
  destruct (lt (w_random1 w) (literal 1 1));
    destruct (lt (w_random2 w) (literal 5 2));
    destruct (lt (w_random3 w) (literal 8 2));
    cbv [when bind ret get_self put_self print emit set_tasks_completed
           set_current_tasks andb];
    cbn [agent_id agent_type dashboard_url heartbeat_interval tasks_completed
           current_tasks];
    try match goal with
      | |- context [0 <? ?n] => destruct (Z.ltb_spec 0 n)
      end;
    rewrite <- ?app_assoc;
    first [ eexists _, _; split; [reflexivity|]
          | exists self, []; split; [rewrite app_nil_r; reflexivity|] ];
    cbn [agent_id agent_type dashboard_url heartbeat_interval tasks_completed
           current_tasks];
    (split; [tauto|]); (split; [lia|]); (split; [lia|]);
    repeat constructor.
Qed.

(** ** The main loop *)


Lemma sleep_reads_only (P : event -> Prop) (interrupted : bool) :
  (forall n, P (EvSleep n)) -> reads_only P (sleep interrupted).
Proof.
  intros HP. unfold sleep. reads_only_steps. apply HP.
Qed.

Section LoopFacts.

(** The heartbeat of the loop body may be any method that leaves [self] as it
    is, whatever it returns or raises. *)
Variable heartbeat : world -> M bool.
Hypothesis heartbeat_reads :
  forall w self tr, state_after (heartbeat w self tr) = self.

(** What a pass does to [self], whether it ends normally or not. *)
Lemma iteration_state (w : world) (self : agent) (tr : list event) :
  same_config self (state_after (iteration heartbeat w self tr)) /\
  tasks_completed self
  <= tasks_completed (state_after (iteration heartbeat w self tr)) /\
  (tasks_bounded self ->
   tasks_bounded (state_after (iteration heartbeat w self tr))).
Proof.
  assert (Hhandlers : forall (r : outcome loop_ctl) (s : agent) (t : list event),
    exists r' t',
      match r with
      | Raise KeyboardInterrupt =>
          (print (MsgStopping (agent_id s)) ;;; ret Break) s t
      | Raise (Exception k) =>
          (print (MsgUnexpected (Exception k)) ;;;
           sleep (w_handler_sleep_interrupted w) ;;; ret Continue) s t
      | Ok c => (Ok c, s, t)
      end = (r', s, t')).
  { intros [c|[k|]] s t; [eexists _, _; reflexivity| |eexists _, _; reflexivity].
    assert (Hro : reads_only (fun _ => True)
                    (print (MsgUnexpected (Exception k)) ;;;
                     sleep (w_handler_sleep_interrupted w) ;;; ret Continue)).
    { reads_only_steps; [exact I|]. apply sleep_reads_only. intros; exact I. }
    destruct (Hro s t) as (r' & t' & -> & _). eexists _, _; reflexivity. }
  assert (Hrun : exists r s' t',
    iteration heartbeat w self tr = (r, s', t') /\
    same_config self s' /\
    tasks_completed self <= tasks_completed s' /\
    (tasks_bounded self -> tasks_bounded s')).
  { unfold iteration, loop_body. unfold bind at 1.
    pose proof (heartbeat_reads w self tr) as Hself.
    destruct (heartbeat w self tr) as [[r s1] t1].
    unfold state_after in Hself. cbn [fst snd] in Hself. subst s1.
    destruct r as [success|e].
    - unfold bind at 1.
      destruct (simulate_task_activity_run w self t1)
        as (s2 & t2 & -> & Hcfg & Hmono & Hbound & _).
      assert (Hro : reads_only (fun _ => True)
                      (when (negb success) (print MsgRetryNextCycle) ;;;
                       sleep (w_sleep_interrupted w) ;;; ret Continue)).
      { unfold when. reads_only_steps; try exact I.
        apply sleep_reads_only. intros; exact I. }
      destruct (Hro s2 (t1 ++ t2)) as (r' & t' & -> & _).
      destruct (Hhandlers r' s2 ((t1 ++ t2) ++ t')) as (r'' & t'' & ->).
      exists r'', s2, t''. tauto.
    - destruct (Hhandlers (Raise e) self t1) as (r'' & t'' & ->).
      exists r'', self, t''. unfold same_config. split; [reflexivity|].
      split; [tauto|]. split; [lia|tauto]. }
  destruct Hrun as (r & s' & t' & -> & Hfacts). exact Hfacts.
Qed.



(** The counter of current tasks stays in its range through any number of
    passes. *)
Lemma loop_tasks_bounded (ws : list world) (self : agent) (tr : list event) :
  tasks_bounded self ->
  tasks_bounded (loop heartbeat ws self tr).1.2.
Proof.
  revert self tr. induction ws as [|w ws IH]; intros self tr Hb.
  - exact Hb.
  - cbn [loop].
    destruct (iteration_state w self tr) as (_ & _ & Hkeep).
    specialize (Hkeep Hb).
    destruct (iteration heartbeat w self tr) as [[[[|]|e] s1] t1];
      unfold state_after in Hkeep; cbn [fst snd] in Hkeep |- *.
    + apply IH. exact Hkeep.
    + exact Hkeep.
    + exact Hkeep.
Qed.

End LoopFacts.











(** A Ctrl-C during the sleep of the second pass: the handler prints the last
    line and the loop is left by [break]. *)
Example ctrl_c_stops_cleanly :
  status_of (run [world_500; world_ctrl_c; sample_world] sample_agent [])
  = Stopped /\
  last (trace (run [world_500; world_ctrl_c; sample_world] sample_agent []))
  = Some (EvPrint (MsgStopping "agent-ip-10-0-0-7")).
Proof. split; vm_compute; reflexivity. Qed.


(** C7: from the initial state of [__init__], where it is 0, the counter
    current_tasks is between 0 and 5 after any number of passes of the loop,
    whatever the random draws and the other answers of the outside. *)
Theorem current_tasks_stays_in_range
    (id type url : string) (interval : Z) (ws : list world) (tr : list event) :
  0 <= current_tasks (state_after (run ws (init id type url interval) tr)) <= 5.
Proof.
  unfold run, run_with.
  apply (loop_tasks_bounded send_heartbeat send_heartbeat_self).
  unfold tasks_bounded, init. cbn [current_tasks]. lia.
Qed.

(** * Further properties *)

(** ** Bounds of the float operations *)

Lemma round_half_even_le (x : Q) (M : Z) :
  (x <= inject_Z M)%Q -> round_half_even x <= M.
Proof.
  intros Hx. unfold round_half_even.
  pose proof (Qfloor_le x) as Hlo.
  assert (Hf : Qfloor x <= M).
  { rewrite <- (Qfloor_Z M). apply Qfloor_resp_le, Hx. }
  assert (Hstep : (inject_Z (Qfloor x) < x)%Q -> Qfloor x + 1 <= M).
  { intros Hlt. assert (Hlt2 : (inject_Z (Qfloor x) < inject_Z M)%Q) by lra.
    rewrite <- Zlt_Qlt in Hlt2. lia. }
  destruct (x - inject_Z (Qfloor x) ?= 1 # 2)%Q eqn:E.
  - apply Qeq_alt in E. destruct (Z.even (Qfloor x)); [exact Hf|].
    apply Hstep. lra.
  - exact Hf.
  - apply Qgt_alt in E. apply Hstep. lra.
Qed.

Lemma round_half_even_nonneg (x : Q) : (0 <= x)%Q -> 0 <= round_half_even x.
Proof.
  intros Hx. unfold round_half_even.
  assert (Hf : 0 <= Qfloor x).
  { change 0 with (Qfloor 0). apply Qfloor_resp_le, Hx. }
  destruct (x - inject_Z (Qfloor x) ?= 1 # 2)%Q;
    [destruct (Z.even (Qfloor x))| |]; lia.
Qed.

Lemma pow2_nonpos (e : Z) :
  e <= 0 -> (pow2 e == 1 / inject_Z (2 ^ (- e)))%Q.
Proof.
  intros He. unfold pow2. destruct (Z.leb_spec 0 e) as [H0|H0].
  - assert (e = 0) by lia. subst e. reflexivity.
  - unfold Qdiv. rewrite Qmult_1_l. reflexivity.
Qed.

Lemma floor_log2_lt (a : Q) (n : Z) :
  (0 < a)%Q -> 0 <= n -> (a < inject_Z (2 ^ n))%Q -> floor_log2 a < n.
Proof.
  intros Hpos Hn Hlt. unfold floor_log2.
  destruct a as [num den]. cbn [Qnum Qden].
  assert (Hnum : 0 < num).
  { unfold Qlt in Hpos. cbn in Hpos. lia. }
  assert (Hnd : num < Z.pos den * 2 ^ n).
  { unfold Qlt in Hlt. cbn in Hlt. lia. }
  assert (Hk : Z.log2 num - Z.log2 (Z.pos den) <= n).
  { pose proof (Z.log2_le_mono num (Z.pos den * 2 ^ n)) as Hmono.
    rewrite Z.log2_mul_pow2 in Hmono by lia. lia. }
  destruct (Qle_bool (pow2 (Z.log2 num - Z.log2 (Z.pos den))) (num # den))
    eqn:Hle; [|lia].
  apply Qle_bool_iff in Hle.
  destruct (Z.eq_dec (Z.log2 num - Z.log2 (Z.pos den)) n) as [Heq|Hne]; [|lia].
  exfalso. rewrite Heq in Hle. unfold pow2 in Hle.
  destruct (Z.leb_spec 0 n); [|lia]. lra.
Qed.

Lemma b64_round_bounded (q : Q) (N : Z) :
  (0 <= q <= inject_Z N)%Q -> N < 2 ^ 53 ->
  exists r, b64_round q = FFin r /\ (0 <= r <= inject_Z N)%Q.
Proof.
  intros [Hlo Hhi] HN. unfold b64_round.
  destruct (Qeq_bool q 0) eqn:E0.
  - exists 0%Q. split; [reflexivity|]. lra.
  - assert (Hpos : (0 < q)%Q).
    { apply Qeq_bool_neq in E0. apply Qle_lteq in Hlo as [Hlt|Heq]; [exact Hlt|].
      exfalso. apply E0. symmetry. exact Heq. }
    assert (Ha : Qabs q = q).
    { destruct q as [n d]. unfold Qabs. f_equal. apply Z.abs_eq.
      unfold Qle in Hlo. cbn in Hlo. lia. }
    cbv zeta. rewrite Ha.
    assert (Hfl : floor_log2 q < 53).
    { apply floor_log2_lt; [exact Hpos|lia|].
      apply Qle_lt_trans with (inject_Z N); [exact Hhi|].
      rewrite <- Zlt_Qlt. exact HN. }
    set (e := Z.max (floor_log2 q - (mant_bits - 1)) min_exp).
    assert (He : e <= 0) by (unfold e, mant_bits, min_exp; lia).
    pose proof (pow2_nonpos e He) as Hpow.
    set (P := 2 ^ (- e)) in Hpow.
    assert (HP : 0 < P) by (apply Z.pow_pos_nonneg; lia).
    assert (HPq : (0 < inject_Z P)%Q).
    { change 0%Q with (inject_Z 0). rewrite <- Zlt_Qlt. exact HP. }
    assert (HPne : ~ (inject_Z P == 0)%Q) by (apply Qnot_eq_sym, Qlt_not_eq, HPq).
    assert (Hscaled : (q / pow2 e == q * inject_Z P)%Q).
    { rewrite Hpow. field. exact HPne. }
    set (m := round_half_even (q / pow2 e)).
    assert (Hm_hi : m <= N * P).
    { apply round_half_even_le. rewrite Hscaled, inject_Z_mult.
      apply Qmult_le_compat_r; [exact Hhi|]. apply Qlt_le_weak, HPq. }
    assert (Hm_lo : 0 <= m).
    { apply round_half_even_nonneg. rewrite Hscaled.
      apply Qmult_le_0_compat; [exact Hlo|]. apply Qlt_le_weak, HPq. }
    assert (Hr : (inject_Z m * pow2 e == inject_Z m / inject_Z P)%Q).
    { rewrite Hpow. field. exact HPne. }
    assert (Hr_lo : (0 <= inject_Z m * pow2 e)%Q).
    { rewrite Hr. apply Qle_shift_div_l; [exact HPq|].
      rewrite Qmult_0_l. change 0%Q with (inject_Z 0). rewrite <- Zle_Qle.
      exact Hm_lo. }
    assert (Hr_hi : (inject_Z m * pow2 e <= inject_Z N)%Q).
    { rewrite Hr. apply Qle_shift_div_r; [exact HPq|].
      rewrite <- inject_Z_mult, <- Zle_Qle. exact Hm_hi. }
    assert (Hneg : negb (Qle_bool 0 q) = false).
    { apply negb_false_iff, Qle_bool_iff, Hlo. }
    assert (Hover : Qle_bool (pow2 max_exp) (inject_Z m * pow2 e) = false).
    { destruct (Qle_bool (pow2 max_exp) (inject_Z m * pow2 e)) eqn:Hb;
        [|reflexivity].
      exfalso. apply Qle_bool_iff in Hb.
      change (pow2 max_exp) with (inject_Z (2 ^ 1024)) in Hb.
      assert (Hbig : (inject_Z (2 ^ 1024) <= inject_Z N)%Q)
        by (apply Qle_trans with (inject_Z m * pow2 e)%Q; assumption).
      rewrite <- Zle_Qle in Hbig.
      assert (2 ^ 53 <= 2 ^ 1024) by (apply Z.pow_le_mono_r; lia). lia. }
    rewrite Hneg, Hover.
    exists (Qred (inject_Z m * pow2 e)). split; [reflexivity|].
    rewrite Qred_correct. split; assumption.
Qed.

Lemma round_bounded (q : Q) (N ndigits : Z) :
  (0 <= q <= inject_Z N)%Q -> N < 2 ^ 53 -> 0 <= ndigits ->
  exists r, round (FFin q) ndigits = FFin r /\ (0 <= r <= inject_Z N)%Q.
Proof.
  intros [Hlo Hhi] HN Hnd. unfold round. cbv zeta.
  set (p := 10 ^ ndigits).
  assert (Hp : 0 < p) by (apply Z.pow_pos_nonneg; lia).
  assert (Hpq : (0 < inject_Z p)%Q).
  { change 0%Q with (inject_Z 0). rewrite <- Zlt_Qlt. exact Hp. }
  set (k := round_half_even (q * inject_Z p)).
  assert (Hk_hi : k <= N * p).
  { apply round_half_even_le. rewrite inject_Z_mult.
    apply Qmult_le_compat_r; [exact Hhi|]. apply Qlt_le_weak, Hpq. }
  assert (Hk_lo : 0 <= k).
  { apply round_half_even_nonneg.
    apply Qmult_le_0_compat; [exact Hlo|]. apply Qlt_le_weak, Hpq. }
  apply b64_round_bounded; [|exact HN].
  split.
  - apply Qle_shift_div_l; [exact Hpq|]. rewrite Qmult_0_l.
    change 0%Q with (inject_Z 0). rewrite <- Zle_Qle. exact Hk_lo.
  - apply Qle_shift_div_r; [exact Hpq|].
    rewrite <- inject_Z_mult, <- Zle_Qle. exact Hk_hi.
Qed.

Lemma int_truediv_fraction (used total : Z) :
  0 <= used <= total -> 0 < total ->
  exists r, int_truediv used total = Ok (FFin r) /\ (0 <= r <= 1)%Q.
Proof.
  intros [Hlo Hhi] Hpos. unfold int_truediv.
  destruct (Z.eqb_spec total 0) as [H0|_]; [lia|].
  assert (Htq : (0 < inject_Z total)%Q).
  { change 0%Q with (inject_Z 0). rewrite <- Zlt_Qlt. exact Hpos. }
  destruct (b64_round_bounded (inject_Z used / inject_Z total) 1)
    as (r & -> & Hr).
  - split.
    + apply Qle_shift_div_l; [exact Htq|]. rewrite Qmult_0_l.
      change 0%Q with (inject_Z 0). rewrite <- Zle_Qle. exact Hlo.
    + apply Qle_shift_div_r; [exact Htq|]. change (inject_Z 1) with 1%Q.
      rewrite Qmult_1_l, <- Zle_Qle. exact Hhi.
  - reflexivity.
  - exists r. split; [reflexivity|exact Hr].
Qed.

Lemma times_100_bounded (r : Q) :
  (0 <= r <= 1)%Q ->
  exists d, mul (FFin r) (of_int 100) = FFin d /\ (0 <= d <= 100)%Q.
Proof.
  intros [Hlo Hhi].
  change (of_int 100) with (FFin 100). cbn [mul].
  apply (b64_round_bounded (r * 100) 100); [|reflexivity].
  change (inject_Z 100) with 100%Q. split; lra.
Qed.

(** X1: when the percentages that [psutil] reports lie between 0 and 100 and
    the used disk space does not exceed the total, every snapshot that
    [get_system_metrics] returns, on the success branch (after the division,
    the multiplication by 100 and the rounding) and on the failure branch
    alike, has cpuUsage, memoryUsage and diskUsage between 0 and 100. *)
Theorem snapshot_percentages_in_range
    (w : world) (self : agent) (tr : list event) (m : metrics) :
  percent_answer (w_cpu_percent w) ->
  percent_answer (w_memory_percent w) ->
  disk_answer (w_disk_usage w) ->
  result (get_system_metrics w self tr) = Ok m ->
  is_percentage (cpuUsage m) /\
  is_percentage (memoryUsage m) /\
  is_percentage (diskUsage m).
Proof.
  intros Hcpu Hmem Hdisk.
  assert (Hzero : is_percentage (PInt 0)).
  { exists 0%Q. split; [reflexivity|]. lra. }
  unfold get_system_metrics, try_except_Exception, bind, lift, result.
  destruct (w_cpu_percent w) as [cpu|[k|]]; cbn [fst];
    [|intros [= <-]; cbn; tauto|discriminate].
  destruct (Hcpu cpu eq_refl) as (c & -> & Hc).
  destruct (w_memory_percent w) as [mem|[k|]]; cbn [fst];
    [|intros [= <-]; cbn; tauto|discriminate].
  destruct (Hmem mem eq_refl) as (mm & -> & Hmm).
  destruct (w_disk_usage w) as [[used total]|[k|]]; cbn [fst snd];
    [|intros [= <-]; cbn; tauto|discriminate].
  specialize (Hdisk used total eq_refl).
  destruct (Z.eq_dec total 0) as [->|Htotal].
  { cbn. intros [= <-]; cbn; tauto. }
  destruct (int_truediv_fraction used total Hdisk) as (r & -> & Hr); [lia|].
  destruct (times_100_bounded r Hr) as (d & Hd & Hdb).
  destruct (round_bounded c 100 2) as (c' & Ec & Hc'); [exact Hc|reflexivity|lia|].
  destruct (round_bounded mm 100 2) as (m' & Em & Hm'); [exact Hmm|reflexivity|lia|].
  destruct (round_bounded d 100 2) as (d' & Ed & Hd'); [exact Hdb|reflexivity|lia|].
  cbv zeta. rewrite Hd, Ec, Em, Ed.
  destruct (w_net_io w) as [[recv sent]|[k|]]; cbn [fst snd];
    [|intros [= <-]; cbn; tauto|discriminate].
  intros [= <-]. cbn [cpuUsage memoryUsage diskUsage].
  split; [|split]; eexists; (split; [reflexivity|assumption]).
Qed.

Lemma snapshot_percentages_in_range_witness :
  is_percentage (PFloat (of_int 85)) /\
  is_percentage (PFloat (of_int 50)) /\
  is_percentage (PFloat (of_int 30)).
Proof.
  apply (snapshot_percentages_in_range sample_world sample_agent [] sample_metrics).
  - intros x [= <-]. exists 85%Q. split; [reflexivity|]. lra.
  - intros x [= <-]. exists 50%Q. split; [reflexivity|]. lra.
  - intros used total [= <- <-]. lia.
  - vm_compute. reflexivity.
Defined.

(** ** What a heartbeat posts *)

Lemma posts_app (t1 t2 : list event) : posts (t1 ++ t2) = posts t1 ++ posts t2.
Proof. unfold posts. apply flat_map_app. Qed.

Lemma posts_prints (t : list event) : Forall is_print t -> posts t = [].
Proof.
  induction 1 as [|ev t Hev _ IH]; [reflexivity|].
  destruct ev; try contradiction; exact IH.
Qed.

(** The dict of the resolver does not depend on the trace so far. *)
Lemma get_instance_metadata_result (w : world) (self : agent)
    (tr tr' : list event) :
  result (get_instance_metadata w self tr)
  = result (get_instance_metadata w self tr').
Proof.
  rewrite !get_instance_metadata_run.
  destruct (w_get w instance_id_url); reflexivity.
Qed.

(** The POST of a heartbeat: one request when the sampler returned, none when
    it was interrupted. *)
Lemma send_heartbeat_posts (w : world) (self : agent) (tr : list event) :
  match result (get_system_metrics w self tr) with
  | Ok metrics =>
      exists md,
        result (get_instance_metadata w self tr) = Ok md /\
        posts (trace (send_heartbeat w self tr))
        = posts tr ++ [(heartbeat_url self, heartbeat_payload w metrics md, 10)]
  | Raise _ => posts (trace (send_heartbeat w self tr)) = posts tr
  end.
Proof.
  rewrite send_heartbeat_run.
  destruct (get_system_metrics_reads_only is_print w (fun _ => I) self tr)
    as (r & t1 & -> & Hprints).
  pose proof (posts_prints t1 Hprints) as H1.
  change (result (r, self, tr ++ t1)) with r.
  destruct r as [metrics|[k|]].
  - rewrite (get_instance_metadata_result w self tr (tr ++ t1)).
    rewrite get_instance_metadata_run.
    pose proof (posts_prints _ (after_post_prints w (cpuUsage metrics))) as H3.
    destruct (w_get w instance_id_url) as [r1|e1];
      (eexists; split; [reflexivity|]);
      unfold trace; cbn [fst snd];
      rewrite !posts_app, H1, H3, !app_nil_r; reflexivity.
  - unfold trace. cbn [snd]. rewrite !posts_app, H1. cbn [posts flat_map app].
    rewrite !app_nil_r. reflexivity.
  - unfold trace. cbn [snd]. rewrite posts_app, H1. apply app_nil_r.
Qed.


(** X2: a heartbeat sends exactly one POST when the sampler returns a
    snapshot, and none when a Ctrl-C interrupts the sampler.  The request
    goes to dashboard_url/api/agents/agent_id/heartbeat with a timeout of 10
    seconds, and its body carries the snapshot of the sampler, the dict of
    the metadata resolver, the cost estimated from the instanceType of that
    dict, the status band of the cpu figure of the snapshot and the current
    timestamp. *)
Theorem heartbeat_posts_one_payload
    (w : world) (self : agent) (tr : list event) :
  (forall metrics,
      result (get_system_metrics w self tr) = Ok metrics ->
      exists md,
        result (get_instance_metadata w self tr) = Ok md /\
        posts (trace (send_heartbeat w self tr))
        = posts tr ++
          [((dashboard_url self ++ "/api/agents/" ++ agent_id self
             ++ "/heartbeat")%string,
            {| p_status := classify (cpuUsage metrics);
               p_metrics := metrics;
               p_cost := calculate_cost (get_instanceType md);
               p_metadata := md;
               p_timestamp := w_now w |},
            10)]) /\
  (forall e,
      result (get_system_metrics w self tr) = Raise e ->
      posts (trace (send_heartbeat w self tr)) = posts tr).
Proof.
  pose proof (send_heartbeat_posts w self tr) as H.
  split.
  - intros metrics Hm. rewrite Hm in H. exact H.
  - intros e He. rewrite He in H. exact H.
Qed.

Lemma heartbeat_posts_one_payload_witness :
  length (posts (trace (send_heartbeat sample_world sample_agent []))) = 1%nat /\
  posts (trace (send_heartbeat world_cpu_ctrl_c sample_agent [])) = [].
Proof.
  split.
  - destruct (proj1 (heartbeat_posts_one_payload sample_world sample_agent [])
                sample_metrics) as (md & _ & Hposts);
      [vm_compute; reflexivity|].
    rewrite Hposts. reflexivity.
  - apply (proj2 (heartbeat_posts_one_payload world_cpu_ctrl_c sample_agent [])
             KeyboardInterrupt).
    reflexivity.
Defined.

(** What the resolver returns, by the answer to its first request. *)
Lemma get_instance_metadata_shape (w : world) (self : agent) (tr : list event) :
  exists md,
    result (get_instance_metadata w self tr) = Ok md /\
    get_instanceType md = reported_type w /\
    match w_get w instance_id_url with
    | Ok r1 =>
        trace (get_instance_metadata w self tr)
        = tr ++ [EvGet instance_id_url 2; EvGet instance_type_url 2] /\
        md !! "instanceId"%string = Some (text_if_200 r1) /\
        is_Some (md !! "instanceType"%string)
    | Raise _ =>
        trace (get_instance_metadata w self tr)
        = tr ++ [EvGet instance_id_url 2] /\
        md !! "instanceId"%string = None /\
        md !! "instanceType"%string = None
    end.
Proof.
  rewrite get_instance_metadata_run. unfold reported_type.
  destruct (w_get w instance_id_url) as [r1|e1].
  - destruct (w_get w instance_type_url) as [r2|e2].
    + unfold text_if_200 at 2 3 4.
      destruct (status_code r2 =? 200);
        (eexists; split; [reflexivity|]; split; [reflexivity|];
         split; [reflexivity|]; split; [reflexivity|]; eexists; reflexivity).
    + eexists; split; [reflexivity|]; split; [reflexivity|];
        split; [reflexivity|]; split; [reflexivity|]; eexists; reflexivity.
  - eexists; split; [reflexivity|]; split; [reflexivity|];
      split; [reflexivity|]; split; reflexivity.
Qed.

Lemma Ok_inj {A} (a b : A) : Ok a = Ok b -> a = b.
Proof. intros H. congruence. Qed.

(** X3: whether the instance-id request raises decides the shape of the
    dict.  When it raises, the instance-type endpoint is not asked at all and
    both keys are left out of the dict, whatever that endpoint would have
    answered; when it answers, with any status, both requests are sent and
    both keys are present, [instanceId] holding the text of a 200 answer and
    [None] otherwise. *)
Theorem instance_id_request_decides_dict_shape
    (w : world) (self : agent) (tr : list event) :
  (forall e,
      w_get w instance_id_url = Raise e ->
      exists md,
        get_instance_metadata w self tr
        = (Ok md, self, tr ++ [EvGet instance_id_url 2]) /\
        md !! "instanceId"%string = None /\
        md !! "instanceType"%string = None /\
        requests_to instance_type_url
          (trace (get_instance_metadata w self [])) = 0%nat) /\
  (forall r1,
      w_get w instance_id_url = Ok r1 ->
      exists md,
        get_instance_metadata w self tr
        = (Ok md, self,
           tr ++ [EvGet instance_id_url 2; EvGet instance_type_url 2]) /\
        md !! "instanceId"%string
        = Some (if status_code r1 =? 200 then VStr (text r1) else VNone) /\
        is_Some (md !! "instanceType"%string)).
Proof.
  destruct (get_instance_metadata_shape w self tr) as (md & Hres & _ & Hshape).
  pose proof (get_instance_metadata_run w self tr) as Hrun.
  pose proof (get_instance_metadata_run w self []) as Hrun0.
  split.
  - intros e He. rewrite He in Hshape, Hrun, Hrun0.
    destruct Hshape as (_ & Hid & Htype).
    rewrite Hrun in Hres. apply Ok_inj in Hres.
    exists md. rewrite Hrun, Hres, Hrun0.
    split; [reflexivity|]. split; [exact Hid|]. split; [exact Htype|].
    reflexivity.
  - intros r1 Hr1. rewrite Hr1 in Hshape, Hrun.
    destruct Hshape as (_ & Hid & Htype).
    rewrite Hrun in Hres. apply Ok_inj in Hres.
    exists md. rewrite Hrun, Hres.
    split; [reflexivity|]. split; [exact Hid|exact Htype].
Qed.

Lemma instance_id_request_decides_dict_shape_witness :
  (exists md,
      get_instance_metadata world_no_metadata sample_agent []
      = (Ok md, sample_agent, [EvGet instance_id_url 2]) /\
      md !! "instanceType"%string = None) /\
  (exists md,
      get_instance_metadata sample_world sample_agent []
      = (Ok md, sample_agent,
         [EvGet instance_id_url 2; EvGet instance_type_url 2]) /\
      md !! "instanceId"%string = Some (VStr "i-0abc")).
Proof.
  destruct (instance_id_request_decides_dict_shape world_no_metadata
              sample_agent []) as [Hraise _].
  destruct (instance_id_request_decides_dict_shape sample_world
              sample_agent []) as [_ Hanswer].
  split.
  - destruct (Hraise (Exception "ConnectTimeout") eq_refl)
      as (md & Hrun & _ & Htype & _).
    exists md. split; [exact Hrun|exact Htype].
  - destruct (Hanswer {| status_code := 200; text := "i-0abc";
                         body_is_json := false |} eq_refl)
      as (md & Hrun & Hid & _).
    exists md. split; [exact Hrun|exact Hid].
Defined.

(** X4: the cost of a posted heartbeat is the estimate for the instance type
    that the metadata endpoint made known in the same heartbeat, and the
    default estimate when it made none known: when the instance-id request
    raised, or when the instance-type request raised or was not answered
    200. *)
Theorem posted_cost_follows_reported_type
    (w : world) (self : agent) (tr : list event)
    (url : string) (p : payload) (timeout : Z) :
  (url, p, timeout) ∈ posts (trace (send_heartbeat w self tr)) ->
  (url, p, timeout) ∈ posts tr \/
  p_cost p = calculate_cost (reported_type w) /\
  (reported_type w = None -> p_cost p = cost_of_rate (literal 5 2)).
Proof.
  intros Hin.
  pose proof (send_heartbeat_posts w self tr) as Hposts.
  destruct (result (get_system_metrics w self tr)) as [metrics|e].
  - destruct Hposts as (md & Hmd & Hposts). rewrite Hposts in Hin.
    apply elem_of_app in Hin as [Hin|Hin]; [left; exact Hin|right].
    apply list_elem_of_singleton in Hin.
    destruct (get_instance_metadata_shape w self tr) as (md' & Hmd' & Htype & _).
    rewrite Hmd in Hmd'. apply Ok_inj in Hmd'. subst md'.
    assert (Hp : p = heartbeat_payload w metrics md) by congruence.
    subst p. unfold heartbeat_payload. cbn [p_cost]. rewrite Htype.
    split; [reflexivity|]. intros ->. reflexivity.
  - left. rewrite Hposts in Hin. exact Hin.
Qed.

Lemma posted_cost_follows_reported_type_witness :
  p_cost sample_payload = calculate_cost (Some "t3.medium"%string).
Proof.
  destruct (posted_cost_follows_reported_type sample_world sample_agent []
              sample_url sample_payload 10) as [Hold|[Hcost _]].
  - apply list_elem_of_In. vm_compute. tauto.
  - apply elem_of_nil in Hold. contradiction.
  - exact Hcost.
Defined.









(** ** One pass and many passes *)

(** What one call of [simulate_task_activity] can do. *)
Lemma simulate_task_activity_facts (w : world) (self : agent) (tr : list event) :
  exists (self' : agent) (t : list event),
    simulate_task_activity w self tr = (Ok tt, self', tr ++ t) /\
    same_config self self' /\
    tasks_completed self <= tasks_completed self' <= tasks_completed self + 1 /\
    (0 <= current_tasks self -> 0 <= current_tasks self') /\
    (current_tasks self <= 5 ->
     current_tasks self - 1 <= current_tasks self' <= current_tasks self + 1 /\
     current_tasks self' <= 5) /\
    Forall is_print t /\
    (lt (w_random1 w) (literal 1 1) = false ->
     lt (w_random2 w) (literal 5 2) = false ->
     lt (w_random3 w) (literal 8 2) = false ->
     self' = self /\ t = []).
Proof.
  unfold simulate_task_activity, same_config.
  destruct (lt (w_random1 w) (literal 1 1));
    destruct (lt (w_random2 w) (literal 5 2));
    destruct (lt (w_random3 w) (literal 8 2));
    cbv [when bind ret get_self put_self print emit set_tasks_completed
           set_current_tasks andb];
    cbn [agent_id agent_type dashboard_url heartbeat_interval tasks_completed
           current_tasks];
    try match goal with
      | |- context [0 <? ?n] => destruct (Z.ltb_spec 0 n)
      end;
    rewrite <- ?app_assoc;
    first [ eexists _, _; split; [reflexivity|]
          | exists self, []; split; [rewrite app_nil_r; reflexivity|] ];
    cbn [agent_id agent_type dashboard_url heartbeat_interval tasks_completed
           current_tasks];
    (split; [tauto|]); (split; [lia|]); (split; [lia|]); (split; [lia|]);
    (split; [repeat constructor|]);
    first [ intros; discriminate | intros _ _ _; split; reflexivity ].
Qed.



Section LoopCounters.

Variable heartbeat : world -> M bool.
Hypothesis heartbeat_reads :
  forall w self tr, state_after (heartbeat w self tr) = self.

(** After a pass, [self] is as before or as [simulate_task_activity] left
    it. *)
Lemma iteration_state_cases (w : world) (self : agent) (tr : list event) :
  state_after (iteration heartbeat w self tr) = self \/
  exists t1,
    state_after (iteration heartbeat w self tr)
    = state_after (simulate_task_activity w self t1).
Proof.
  assert (Hhandlers : forall (r : outcome loop_ctl) (s : agent) (t : list event),
    exists r' t',
      match r with
      | Raise KeyboardInterrupt =>
          (print (MsgStopping (agent_id s)) ;;; ret Break) s t
      | Raise (Exception k) =>
          (print (MsgUnexpected (Exception k)) ;;;
           sleep (w_handler_sleep_interrupted w) ;;; ret Continue) s t
      | Ok c => (Ok c, s, t)
      end = (r', s, t')).
  { intros [c|[k|]] s t; [eexists _, _; reflexivity| |eexists _, _; reflexivity].
    assert (Hro : reads_only (fun _ => True)
                    (print (MsgUnexpected (Exception k)) ;;;
                     sleep (w_handler_sleep_interrupted w) ;;; ret Continue)).
    { reads_only_steps; [exact I|]. apply sleep_reads_only. intros; exact I. }
    destruct (Hro s t) as (r' & t' & -> & _). eexists _, _; reflexivity. }
  assert (Hrun : exists r s' t',
    iteration heartbeat w self tr = (r, s', t') /\
    (s' = self \/
     exists t1, s' = state_after (simulate_task_activity w self t1))).
  { unfold iteration, loop_body. unfold bind at 1.
    pose proof (heartbeat_reads w self tr) as Hself.
    destruct (heartbeat w self tr) as [[r s1] t1].
    unfold state_after in Hself. cbn [fst snd] in Hself. subst s1.
    destruct r as [success|e].
    - unfold bind at 1.
      destruct (simulate_task_activity w self t1) as [[[[]|e] s2] t2] eqn:Hsim.
      + assert (Hro : reads_only (fun _ => True)
                        (when (negb success) (print MsgRetryNextCycle) ;;;
                         sleep (w_sleep_interrupted w) ;;; ret Continue)).
        { unfold when. reads_only_steps; try exact I.
          apply sleep_reads_only. intros; exact I. }
        destruct (Hro s2 t2) as (r' & t' & -> & _).
        destruct (Hhandlers r' s2 (t2 ++ t')) as (r'' & t'' & ->).
        exists r'', s2, t''. split; [reflexivity|].
        right. exists t1. rewrite Hsim. reflexivity.
      + destruct (Hhandlers (Raise e) s2 t2) as (r'' & t'' & ->).
        exists r'', s2, t''. split; [reflexivity|].
        right. exists t1. rewrite Hsim. reflexivity.
    - destruct (Hhandlers (Raise e) self t1) as (r'' & t'' & ->).
      exists r'', self, t''. split; [reflexivity|]. left. reflexivity. }
  destruct Hrun as (r & s' & t' & -> & Hcases). exact Hcases.
Qed.

(** The settings and the counter of completed tasks over any number of
    passes. *)
Lemma loop_counters (ws : list world) (self : agent) (tr : list event) :
  same_config self (state_after (loop heartbeat ws self tr)) /\
  tasks_completed self
  <= tasks_completed (state_after (loop heartbeat ws self tr))
  <= tasks_completed self + Z.of_nat (length ws).
Proof.
  revert self tr. induction ws as [|w ws IH]; intros self tr.
  - unfold same_config. cbn. repeat split; lia.
  - assert (Hstep :
      same_config self (state_after (iteration heartbeat w self tr)) /\
      tasks_completed self
      <= tasks_completed (state_after (iteration heartbeat w self tr))
      <= tasks_completed self + 1).
    { destruct (iteration_state_cases w self tr) as [->|[t1 ->]].
      - unfold same_config. repeat split; lia.
      - destruct (simulate_task_activity_facts w self t1)
          as (s' & t & -> & Hcfg & Htc & _). split; assumption. }
    cbn [loop length].
    destruct (iteration heartbeat w self tr) as [[[[|]|e] s1] t1];
      unfold state_after in Hstep; cbn [fst snd] in Hstep;
      destruct Hstep as [Hcfg Htc].
    + destruct (IH s1 t1) as [Hcfg' Htc'].
      destruct Hcfg as (H1 & H2 & H3 & H4).
      destruct Hcfg' as (H1' & H2' & H3' & H4').
      unfold same_config. repeat split; try congruence; lia.
    + unfold state_after. cbn [fst snd]. split; [exact Hcfg|lia].
    + unfold state_after. cbn [fst snd]. split; [exact Hcfg|lia].
Qed.

End LoopCounters.

(** X10: however many passes [run] makes and however they end, it never
    changes agent_id, agent_type, dashboard_url or heartbeat_interval, and
    the counter tasks_completed never decreases and grows by at most one per
    pass. *)
Theorem run_keeps_settings_and_counts
    (ws : list world) (self : agent) (tr : list event) :
  agent_id (state_after (run ws self tr)) = agent_id self /\
  agent_type (state_after (run ws self tr)) = agent_type self /\
  dashboard_url (state_after (run ws self tr)) = dashboard_url self /\
  heartbeat_interval (state_after (run ws self tr)) = heartbeat_interval self /\
  tasks_completed self
  <= tasks_completed (state_after (run ws self tr))
  <= tasks_completed self + Z.of_nat (length ws).
Proof.
  unfold run, run_with.
  destruct (loop_counters send_heartbeat send_heartbeat_self ws self
              (tr ++ [EvPrint (MsgStartMonitoring (agent_id self))]))
    as [(Hid & Hty & Hurl & Hint) Htc].
  repeat (split; [assumption|]). exact Htc.
Qed.

















Ltac check_cost_order :=
  eexists _, _, _;
  split; [vm_compute; reflexivity|];
  split; [vm_compute; reflexivity|];
  split; [vm_compute; reflexivity|];
  split; vm_compute; discriminate.

Lemma cost_entries_ordered :
  Forall (fun item => cost_figures_ordered item.2) cost_entries.
Proof.
  unfold cost_entries.
  repeat (apply List.Forall_cons; [cbn [snd]; check_cost_order|]).
  apply List.Forall_nil.
Qed.

Lemma default_rate_ordered : cost_figures_ordered (literal 5 2).
Proof. check_cost_order. Qed.

(** X15: for every instance type, the hourly figure of the estimate is the
    looked-up rate itself (rounding to 4 places changes none of the rates of
    the table, nor the default), and the three figures are positive and
    ordered: hourly <= daily <= monthly. *)
Theorem estimate_reports_rate_and_is_ordered (instance_type : option string) :
  exists h d m : Q,
    looked_up_rate instance_type = FFin h /\
    calculate_cost instance_type
    = {| hourly := FFin h; daily := FFin d; monthly := FFin m |} /\
    (0 < h)%Q /\ (h <= d)%Q /\ (d <= m)%Q.
Proof.
  assert (H : cost_figures_ordered (looked_up_rate instance_type)).
  { unfold looked_up_rate. destruct instance_type as [T|];
      [|apply default_rate_ordered].
    destruct (cost_map !! T) as [H|] eqn:Hlookup;
      [|apply default_rate_ordered].
    apply cost_map_lookup in Hlookup.
    exact (proj1 (Forall_forall _ _) cost_entries_ordered (T, H) Hlookup). }
  destruct H as (h & d & m & Hrate & Hcost & Hpos & Hhd & Hdm).
  exists h, d, m. split; [exact Hrate|]. split; [|tauto].
  rewrite <- Hcost. reflexivity.
Qed.

(** X16: the bands of the status are decided by the two thresholds alone,
    also outside the range of a percentage: a figure is 'busy' exactly when
    it exceeds 80, 'running' exactly when it exceeds 10 without exceeding
    80, and 'idle' exactly when it is at most 10, negative figures included;
    NaN and minus infinity are 'idle', plus infinity is 'busy'. *)
Theorem classify_thresholds (cpu : pynum) :
  (forall q,
      num_value cpu = Some q ->
      (classify cpu = "busy"%string <-> (80 < q)%Q) /\
      (classify cpu = "running"%string <-> (10 < q <= 80)%Q) /\
      (classify cpu = "idle"%string <-> (q <= 10)%Q)) /\
  classify (PFloat FNaN) = "idle"%string /\
  classify (PFloat (FInf true)) = "idle"%string /\
  classify (PFloat (FInf false)) = "busy"%string.
Proof.
  split; [|repeat split; reflexivity].
  intros q Hq. unfold classify.
  destruct (num_gt_spec cpu q 80 Hq) as [H80t H80f].
  destruct (num_gt_spec cpu q 10 Hq) as [H10t H10f].
  change (inject_Z 80) with 80%Q in *. change (inject_Z 10) with 10%Q in *.
  destruct (num_gt cpu 80) eqn:E80; [|destruct (num_gt cpu 10) eqn:E10].
  - assert (80 < q)%Q by (apply H80t; reflexivity).
    split; [|split]; (split; [intros Hs|intros Hs]); try discriminate;
      try reflexivity; lra.
  - assert (q <= 80)%Q by (apply H80f; reflexivity).
    assert (10 < q)%Q by (apply H10t; reflexivity).
    split; [|split]; (split; [intros Hs|intros Hs]); try discriminate;
      try reflexivity; lra.
  - assert (q <= 10)%Q by (apply H10f; reflexivity).
    split; [|split]; (split; [intros Hs|intros Hs]); try discriminate;
      try reflexivity; lra.
Qed.

Lemma classify_thresholds_witness :
  classify (PFloat (FFin (-5))) = "idle"%string /\
  classify (PFloat (FFin 250)) = "busy"%string.
Proof.
  destruct (proj1 (classify_thresholds (PFloat (FFin (-5)))) (-5)%Q eq_refl)
    as (_ & _ & Hidle).
  destruct (proj1 (classify_thresholds (PFloat (FFin 250))) 250%Q eq_refl)
    as (Hbusy & _).
  split; [apply Hidle; lra|apply Hbusy; lra].
Defined.
